(** * Expense-tracker infrastructure: the two CDK stacks as synthesis programs

    The repository declares two stacks.  [ExpenseTrackerServicesDeployStack]
    (src/lib/infra-stack.ts) builds the network and publishes its identifiers
    in the parameter store; [ExpenseTrackerServices] (the second source file)
    reads them back and declares the workloads.

    A stack constructor is embedded as a program in a small monad [Synth]:
    it reads the deployment context (availability zones, parameter store,
    existing networks), adds constructs to the stack's construct tree and may
    throw.  Deployment resolves the tokens of the synthesized resources and
    writes the parameters to the store. *)

From stdpp Require Import base option list strings gmap pretty.
From Stdlib Require Import NArith Lia.

Open Scope string_scope.

(** ** Addresses and address blocks *)

Record Cidr := mkCidr { cidrBase : N; cidrPrefix : N }.

Definition ipv4 (a b c d : N) : N := (((a * 256 + b) * 256 + c) * 256 + d)%N.

Notation "a ∙ b ∙ c ∙ d // p" := (mkCidr (ipv4 a b c d) p)
  (at level 30, b at level 0, c at level 0, d at level 0, p at level 0).

Definition netmask (p : N) : N := N.shiftl (N.ones p) (32 - p).

Definition cidrSize (c : Cidr) : N := (2 ^ (32 - cidrPrefix c))%N.

(** An address belongs to a block when both agree under the block's mask. *)
Definition inCidr (ip : N) (c : Cidr) : bool :=
  (N.land ip (netmask (cidrPrefix c)) =? N.land (cidrBase c) (netmask (cidrPrefix c)))%N.

Definition anyIpv4 : Cidr := 0∙0∙0∙0 // 0.

(** ** Tokens

    Identifiers of resources that do not exist before deployment ([x.ref],
    [x.attrAllocationId], [nlb.loadBalancerDnsName]) are tokens; a string
    property is a sequence of literal fragments and tokens. *)

Inductive Token :=
| Ref (logicalId : string)
| GetAtt (logicalId attr : string).

Inductive Frag :=
| Lit (s : string)
| Tok (t : Token).

Definition TString := list Frag.

#[global] Instance Token_eq_dec : EqDecision Token.
Proof. solve_decision. Defined.
#[global] Instance Frag_eq_dec : EqDecision Frag.
Proof. solve_decision. Defined.
#[global] Instance Cidr_eq_dec : EqDecision Cidr.
Proof. solve_decision. Defined.

Definition Resolver := Token → string.

Definition resolveFrag (ρ : Resolver) (f : Frag) : string :=
  match f with Lit s => s | Tok t => ρ t end.

Definition resolve (ρ : Resolver) (t : TString) : string :=
  String.concat "" (resolveFrag ρ <$> t).

(** ** Resource descriptors *)

Inductive SubnetType := PUBLIC | PRIVATE_WITH_EGRESS | PRIVATE_ISOLATED.

#[global] Instance SubnetType_eq_dec : EqDecision SubnetType.
Proof. solve_decision. Defined.

Record SubnetConfiguration := {
  cidrMask : N;
  name : string;
  subnetType : SubnetType
}.

Record VpcProps := {
  vpcName : string;
  cidr : Cidr;
  maxAzs : nat;
  natGateways : nat;
  createInternetGateway : bool;
  subnetConfiguration : list SubnetConfiguration
}.

Record Subnet := {
  subnetPath : string;
  subnetId : TString;
  availabilityZone : string;
  ipv4CidrBlock : Cidr;
  routeTableId : TString;
  subnetKind : SubnetType
}.

Record Vpc := {
  vpcId : TString;
  vpcCidrBlock : Cidr;
  publicSubnets : list Subnet;
  privateSubnets : list Subnet;
  isolatedSubnets : list Subnet
}.

Inductive RouteTarget :=
| ViaGateway (gatewayId : TString)
| ViaNatGateway (natGatewayId : TString).

(** Listener and target-group protocols of the load balancer. *)
Inductive Protocol := TCP | UDP | TCP_UDP | TLS.

#[global] Instance Protocol_eq_dec : EqDecision Protocol.
Proof. solve_decision. Defined.

(** Transport protocols seen by a security group. *)
Inductive IpProtocol := IpTcp | IpUdp | IpIcmp.

#[global] Instance IpProtocol_eq_dec : EqDecision IpProtocol.
Proof. solve_decision. Defined.

(** A port specification: [Port.tcp(p)] is a single TCP port,
    [Port.allTraffic()] every protocol and port. *)
Inductive Port :=
| PortRange (proto : IpProtocol) (fromPort toPort : N)
| AllTraffic.

(** One rule of a security group: a peer block, a port specification and a
    description. *)
Record Rule := {
  rulePeer : Cidr;
  rulePort : Port;
  ruleDescription : string
}.

Inductive AwsLogDriverMode := BLOCKING | NON_BLOCKING.

Record AwsLogs := {
  streamPrefix : string;
  mode : AwsLogDriverMode;
  maxBufferSizeMiB : N
}.

Record ContainerDefinition := {
  image : string;
  environment : list (string * TString);
  portMappings : list N;
  logging : AwsLogs
}.

Inductive TargetType := IP | INSTANCE.

Record FargateServiceProps := {
  cluster : string;
  taskDefinition : string;
  desiredCount : nat;
  securityGroups : list string;
  vpcSubnets : list TString;
  enableExecuteCommand : bool;
  cloudMapOptions : option string
}.

Inductive Resource :=
| CfnVPC (cidrBlock : Cidr) (nameTag : string)
| CfnSubnet (inVpc : TString) (s : Subnet)
| CfnInternetGateway
| CfnVPCGatewayAttachment (ofVpc internetGatewayId : TString)
| CfnEIP
| CfnNatGateway (inSubnet allocationId : TString)
| CfnRoute (inRouteTable : TString) (destinationCidrBlock : Cidr) (target : RouteTarget)
| StringParameter (parameterName : string) (stringValue : TString)
| SecurityGroup (ofVpc : TString) (allowAllOutbound : bool) (ingress egress : list Rule)
| Cluster (ofVpc : TString) (defaultCloudMapNamespace : string)
| NetworkLoadBalancer (ofVpc : TString) (internetFacing : bool) (subnets : list TString)
| FargateTaskDefinition (memoryLimitMiB cpu : option N)
    (containers : list (string * ContainerDefinition))
| FargateService (props : FargateServiceProps)
| NetworkTargetGroup (ofVpc : TString) (port : N) (protocol : Protocol)
    (targetType : TargetType) (targets : list string)
| NetworkListener (loadBalancer : string) (port : N) (protocol : Protocol)
    (defaultTargetGroups : list string).

(** ** The deployment context and the synthesis monad *)

(** What the context providers of the toolkit answer from the account: the
    zones of the region, the parameter store, and the networks that exist. *)
Record Cloud := {
  zones : list string;
  registry : gmap string string;
  networks : gmap string Vpc
}.

Inductive Error :=
| TypeError (what : string)
| DuplicateConstruct (id : string)
| NoSuchConstruct (id : string)
| ParameterNotFound (key : string)
| ParameterAlreadyExists (key : string)
| VpcNotFound (id : string)
| CidrExhausted (block : Cidr).

Inductive Result (A : Type) :=
| Ok (a : A)
| Throw (e : Error).
Arguments Ok {A} a.
Arguments Throw {A} e.

Inductive Event :=
| LookedUp (key : string)
| VpcLookedUp (id : string)
| Created (id : string)
| MissingContext (key : string)
| MissingVpc (id : string).

#[global] Instance Event_eq_dec : EqDecision Event.
Proof. solve_decision. Defined.

(** The construct tree of the stack under synthesis, in creation order and
    keyed by construct path, and the trace of what synthesis did. *)
Record State := {
  resources : list (string * Resource);
  trace : list Event
}.

Definition emptyStack : State := {| resources := []; trace := [] |}.

Definition Synth (A : Type) : Type := Cloud → State → Result A * State.

Definition ret {A} (a : A) : Synth A := λ _ st, (Ok a, st).

Definition bind {A B} (m : Synth A) (k : A → Synth B) : Synth B :=
  λ env st,
    match m env st with
    | (Ok a, st') => k a env st'
    | (Throw e, st') => (Throw e, st')
    end.

Definition throw {A} (e : Error) : Synth A := λ _ st, (Throw e, st).

Notation "x <- m ;; k" := (bind m (λ x, k))
  (at level 100, m at next level, right associativity).
Notation "m ;; k" := (bind m (λ _, k))
  (at level 100, right associativity).

Definition ask : Synth Cloud := λ env st, (Ok env, st).

Definition log (e : Event) : Synth unit :=
  λ _ st, (Ok tt, {| resources := resources st; trace := trace st ++ [e] |}).

Fixpoint findConstruct (id : string) (rs : list (string * Resource)) : option Resource :=
  match rs with
  | [] => None
  | (k, r) :: rest => if decide (k = id) then Some r else findConstruct id rest
  end.

(** [new C(this, id, props)]: a second construct with the same path throws. *)
Definition construct (id : string) (r : Resource) : Synth unit :=
  λ _ st,
    match findConstruct id (resources st) with
    | Some _ => (Throw (DuplicateConstruct id), st)
    | None => (Ok tt, {| resources := resources st ++ [(id, r)];
                         trace := trace st ++ [Created id] |})
    end.

(** A method that mutates a construct already in the tree. *)
Definition modify (id : string) (f : Resource → Resource) : Synth unit :=
  λ _ st,
    match findConstruct id (resources st) with
    | None => (Throw (NoSuchConstruct id), st)
    | Some _ =>
        (Ok tt, {| resources := (λ p, if decide (p.1 = id) then (p.1, f p.2) else p) <$> resources st;
                   trace := trace st |})
    end.

(** [xs[i].field]: reading a property of an element that is not there throws. *)
Definition at_index {A} (what : string) (xs : list A) (i : nat) : Synth A :=
  match xs !! i with
  | Some x => ret x
  | None => throw (TypeError what)
  end.

(** [xs.forEach((x, index) => body)] *)
Fixpoint forEachFrom {A} (index : nat) (xs : list A) (body : A → nat → Synth unit) : Synth unit :=
  match xs with
  | [] => ret tt
  | x :: rest => body x index ;; forEachFrom (S index) rest body
  end.

Definition forEach {A} (xs : list A) (body : A → nat → Synth unit) : Synth unit :=
  forEachFrom 0 xs body.

Definition ref (id : string) : TString := [Tok (Ref id)].
Definition attr (id a : string) : TString := [Tok (GetAtt id a)].

(** ** The network construct of the toolkit

    [new Vpc(scope, id, props)] is code of the toolkit library, not of this
    repository.  It is modelled as far as the stacks observe it: the zones are the first [maxAzs] zones of the
    region; every subnet group of [subnetConfiguration] gets one subnet per
    zone, group by group, named [<group>Subnet<k>] and carved from the block
    in request order; the construct adds an internet gateway, default routes
    and NAT gateways of its own only when [createInternetGateway] is set. *)

Definition subnetConstructId (group : string) (index : nat) : string :=
  group +:+ "Subnet" +:+ pretty (index + 1).

Definition requestedSubnets (azs : list string) (groups : list SubnetConfiguration)
  : list (SubnetConfiguration * nat * string) :=
  concat ((λ g, imap (λ i az, (g, i, az)) azs) <$> groups).

Definition allocateCidr (block : Cidr) (mask next : N) : option (Cidr * N) :=
  let size := (2 ^ (32 - mask))%N in
  let start := (size * ((next + size - 1) `div` size))%N in
  if decide (cidrPrefix block ≤ mask ∧ mask ≤ 32 ∧
             start + size ≤ cidrBase block + cidrSize block)%N
  then Some (mkCidr start mask, (start + size)%N)
  else None.

Fixpoint allocateSubnetsCidr (block : Cidr) (next : N) (masks : list N) : option (list Cidr) :=
  match masks with
  | [] => Some []
  | m :: rest =>
      match allocateCidr block m next with
      | None => None
      | Some (c, next') => (c ::.) <$> allocateSubnetsCidr block next' rest
      end
  end.

Definition mkSubnet (vpcPath : string) (req : SubnetConfiguration * nat * string) (c : Cidr) : Subnet :=
  let '(g, index, az) := req in
  let path := vpcPath +:+ "/" +:+ subnetConstructId (name g) index in
  {| subnetPath := path;
     subnetId := ref path;
     availabilityZone := az;
     ipv4CidrBlock := c;
     routeTableId := ref (path +:+ "/RouteTable");
     subnetKind := subnetType g |}.

Definition ofKind (k : SubnetType) (subs : list Subnet) : list Subnet :=
  filter (λ s, subnetKind s = k) subs.

Definition pickGateway (natSubnets : list Subnet) (s : Subnet) (index : nat) : option Subnet :=
  match list_find (λ g, availabilityZone g = availabilityZone s) natSubnets with
  | Some (_, g) => Some g
  | None => natSubnets !! (index `mod` length natSubnets)
  end.

Definition establishInternetConnectivity (id : string) (vpc : Vpc) (natGatewayCount : nat)
  : Synth unit :=
  let igw := id +:+ "/IGW" in
  construct igw CfnInternetGateway ;;
  construct (id +:+ "/VPCGW") (CfnVPCGatewayAttachment (vpcId vpc) (ref igw)) ;;
  forEach (publicSubnets vpc) (λ s _,
    construct (subnetPath s +:+ "/DefaultRoute")
      (CfnRoute (routeTableId s) anyIpv4 (ViaGateway (ref igw)))) ;;
  let natSubnets := take natGatewayCount (publicSubnets vpc) in
  forEach natSubnets (λ s _,
    construct (subnetPath s +:+ "/EIP") CfnEIP ;;
    construct (subnetPath s +:+ "/NATGateway")
      (CfnNatGateway (subnetId s) (attr (subnetPath s +:+ "/EIP") "AllocationId"))) ;;
  forEach (privateSubnets vpc) (λ s index,
    match pickGateway natSubnets s index with
    | None => ret tt
    | Some g =>
        construct (subnetPath s +:+ "/DefaultRoute")
          (CfnRoute (routeTableId s) anyIpv4
             (ViaNatGateway (ref (subnetPath g +:+ "/NATGateway"))))
    end).

Definition new_Vpc (id : string) (props : VpcProps) : Synth Vpc :=
  env <- ask ;;
  let azs := take (maxAzs props) (zones env) in
  construct id (CfnVPC (cidr props) (vpcName props)) ;;
  let requested := requestedSubnets azs (subnetConfiguration props) in
  match allocateSubnetsCidr (cidr props) (cidrBase (cidr props))
          ((λ r, cidrMask r.1.1) <$> requested) with
  | None => throw (CidrExhausted (cidr props))
  | Some cidrs =>
      let subs := zip_with (mkSubnet id) requested cidrs in
      forEach subs (λ s _, construct (subnetPath s) (CfnSubnet (ref id) s)) ;;
      let vpc := {| vpcId := ref id;
                    vpcCidrBlock := cidr props;
                    publicSubnets := ofKind PUBLIC subs;
                    privateSubnets := ofKind PRIVATE_WITH_EGRESS subs;
                    isolatedSubnets := ofKind PRIVATE_ISOLATED subs |} in
      (if createInternetGateway props
       then establishInternetConnectivity id vpc (natGateways props)
       else ret tt) ;;
      ret vpc
  end.

(** ** The network stack (src/lib/infra-stack.ts) *)

(** The properties handed to [Vpc], lines 10-28.  The zone count and the
    block are the two literals [maxAzs: 2] and [cidr: "10.0.0.0/16"]; the
    stack itself ([ExpenseTrackerServicesDeployStack] below) passes exactly
    these two values and takes no other. *)
Definition vpcProps (azCount : nat) (block : Cidr) : VpcProps :=
  {| vpcName := "expenseTracker";
     cidr := block;
     maxAzs := azCount;
     natGateways := 2;
     createInternetGateway := false;
     subnetConfiguration :=
       [ {| cidrMask := 24; name := "public-subnet"; subnetType := PUBLIC |};
         {| cidrMask := 24; name := "private-subnet"; subnetType := PRIVATE_WITH_EGRESS |} ] |}.

Definition networkStackFor (azCount : nat) (block : Cidr) : Synth Vpc :=
  vpc <- new_Vpc "myVPC" (vpcProps azCount block) ;;
  construct "InternetGateway" CfnInternetGateway ;;
  construct "MyUniqueVPCGatewayAttachment"
    (CfnVPCGatewayAttachment (vpcId vpc) (ref "InternetGateway")) ;;
  public0 <- at_index "vpc.publicSubnets[0]" (publicSubnets vpc) 0 ;;
  construct "EIPForNatGatewayOne" CfnEIP ;;
  construct "NatGatewayOne"
    (CfnNatGateway (subnetId public0) (attr "EIPForNatGatewayOne" "AllocationId")) ;;
  public1 <- at_index "vpc.publicSubnets[1]" (publicSubnets vpc) 1 ;;
  construct "EIPForNatGatewayTwo" CfnEIP ;;
  construct "NatGatewayTwo"
    (CfnNatGateway (subnetId public1) (attr "EIPForNatGatewayTwo" "AllocationId")) ;;
  forEach (privateSubnets vpc) (λ subnet index,
    construct ("PrivateRouteToNatGateway-" +:+ pretty index)
      (CfnRoute (routeTableId subnet) anyIpv4
         (ViaNatGateway (if decide (index = 0) then ref "NatGatewayOne"
                         else ref "NatGatewayTwo")))) ;;
  forEach (publicSubnets vpc) (λ subnet index,
    construct ("PublicRouteToInternetGateway-" +:+ pretty index)
      (CfnRoute (routeTableId subnet) anyIpv4 (ViaGateway (ref "InternetGateway")))) ;;
  construct "VpcIdExport" (StringParameter "VpcId" (vpcId vpc)) ;;
  forEach (publicSubnets vpc) (λ subnet index,
    construct ("PublicSubnetExport-" +:+ pretty index)
      (StringParameter ("PublicSubnet-" +:+ pretty index) (subnetId subnet))) ;;
  forEach (privateSubnets vpc) (λ subnet index,
    construct ("PrivateSubnetExport-" +:+ pretty index)
      (StringParameter ("PrivateSubnet-" +:+ pretty index) (subnetId subnet))) ;;
  ret vpc.

Definition ExpenseTrackerServicesDeployStack : Synth Vpc :=
  networkStackFor 2 (10∙0∙0∙0 // 16).

(** ** Context look-ups and imports of the workload stack *)

(** [StringParameter.valueFromLookup]: the value is read from the context
    while the stack is synthesized.  A key the context does not hold does not
    stop the constructor: the key is reported as missing context and the
    call answers the placeholder [dummy-value-for-<name>]. *)
Definition valueFromLookup (parameterName : string) : Synth string :=
  log (LookedUp parameterName) ;;
  env <- ask ;;
  match registry env !! parameterName with
  | Some v => ret v
  | None =>
      log (MissingContext parameterName) ;;
      ret ("dummy-value-for-" +:+ parameterName)
  end.

(** The network [Vpc.fromLookup] answers while the context does not hold the
    one asked for.  The stack reads its id and its block only; the subnet
    groups of the placeholder are not modelled. *)
Definition dummyVpc : Vpc :=
  {| vpcId := [Lit "vpc-12345"];
     vpcCidrBlock := 1∙2∙3∙4 // 5;
     publicSubnets := [];
     privateSubnets := [];
     isolatedSubnets := [] |}.

(** [Vpc.fromLookup]: the network is described by the context; a network the
    context does not hold is reported as missing and answered by the
    placeholder network.  Imports add no resource to the stack. *)
Definition Vpc_fromLookup (id : string) (byId : string) : Synth Vpc :=
  log (VpcLookedUp byId) ;;
  env <- ask ;;
  match networks env !! byId with
  | Some v => ret v
  | None =>
      log (MissingVpc byId) ;;
      ret dummyVpc
  end.

Definition Subnet_fromSubnetId (id : string) (value : string) : TString := [Lit value].

(** ** Construct methods used by the workload stack *)

Definition Peer_ipv4 (block : Cidr) : Cidr := block.
Definition Port_tcp (p : N) : Port := PortRange IpTcp p p.

Definition new_SecurityGroup (id : string) (vpc : Vpc) (allowAll : bool) : Synth unit :=
  construct id
    (SecurityGroup (vpcId vpc) allowAll []
       (if allowAll
        then [ {| rulePeer := anyIpv4; rulePort := AllTraffic;
                  ruleDescription := "Allow all outbound traffic by default" |} ]
        else [])).

Definition addIngressRule (sg : string) (peer : Cidr) (connection : Port) (description : string)
  : Synth unit :=
  modify sg (λ r,
    match r with
    | SecurityGroup v o ing eg =>
        SecurityGroup v o
          (ing ++ [ {| rulePeer := peer; rulePort := connection;
                       ruleDescription := description |} ]) eg
    | other => other
    end).

Definition addContainer (taskDef : string) (id : string) (c : ContainerDefinition) : Synth unit :=
  modify taskDef (λ r,
    match r with
    | FargateTaskDefinition m u cs => FargateTaskDefinition m u (cs ++ [(id, c)])
    | other => other
    end).

Definition addTarget (targetGroup : string) (service : string) : Synth unit :=
  modify targetGroup (λ r,
    match r with
    | NetworkTargetGroup v p pr ty ts => NetworkTargetGroup v p pr ty (ts ++ [service])
    | other => other
    end).

Definition addListener (nlb : string) (id : string) (p : N) (pr : Protocol)
    (groups : list string) : Synth unit :=
  construct (nlb +:+ "/" +:+ id) (NetworkListener nlb p pr groups).

Definition loadBalancerDnsName (nlb : string) : TString := attr nlb "DNSName".

Definition awsLogs (prefix : string) : AwsLogs :=
  {| streamPrefix := prefix; mode := NON_BLOCKING; maxBufferSizeMiB := 25 |}.

(** ** The workload stack (second source file) *)

Definition ExpenseTrackerServices : Synth unit :=
  vpcIdValue <- valueFromLookup "VpcId" ;;
  vpc <- Vpc_fromLookup "VpcImported" vpcIdValue ;;
  subnetValue1 <- valueFromLookup "PrivateSubnet-0" ;;
  let privateSubnet1 := Subnet_fromSubnetId "PrivateSubnet1" subnetValue1 in
  subnetValue2 <- valueFromLookup "PrivateSubnet-1" ;;
  let privateSubnet2 := Subnet_fromSubnetId "PrivateSubnet2" subnetValue2 in
  new_SecurityGroup "DbSecurityGroup" vpc true ;;
  addIngressRule "DbSecurityGroup" (Peer_ipv4 (vpcCidrBlock vpc)) (Port_tcp 3306)
    "Allow MySQL traffic" ;;
  addIngressRule "DbSecurityGroup" (Peer_ipv4 (vpcCidrBlock vpc)) (Port_tcp 9092)
    "Allow Kafka traffic" ;;
  addIngressRule "DbSecurityGroup" (Peer_ipv4 (vpcCidrBlock vpc)) (Port_tcp 2181)
    "Allow Kafka to access Zookeeper" ;;
  construct "DatabaseKafkaCluster" (Cluster (vpcId vpc) "local") ;;
  construct "DatabaseNLB"
    (NetworkLoadBalancer (vpcId vpc) false [privateSubnet1; privateSubnet2]) ;;
  construct "MySQLTaskDef" (FargateTaskDefinition None None []) ;;
  addContainer "MySQLTaskDef" "MySQLContainer"
    {| image := "mysql:8.3.0";
       environment :=
         [ ("MYSQL_ROOT_PASSWORD", [Lit "12345"]);
           ("MYSQL_USER", [Lit "user"]);
           ("MYSQL_PASSWORD", [Lit "12345"]);
           ("MYSQL_ROOT_USER", [Lit "root"]) ];
       logging := awsLogs "MySql";
       portMappings := [3306%N] |} ;;
  construct "ZookeeperTaskDef" (FargateTaskDefinition (Some 512%N) (Some 256%N) []) ;;
  addContainer "ZookeeperTaskDef" "ZookeeperContainer"
    {| image := "confluentinc/cp-zookeeper:7.4.4";
       environment :=
         [ ("ZOOKEEPER_CLIENT_PORT", [Lit "2181"]);
           ("ZOOKEEPER_TICK_TIME", [Lit "2000"]) ];
       portMappings := [2181%N];
       logging := awsLogs "Zookeeper" |} ;;
  construct "KafkaTaskDef" (FargateTaskDefinition (Some 1024%N) (Some 512%N) []) ;;
  addContainer "KafkaTaskDef" "KafkaContainer"
    {| image := "confluentinc/cp-kafka:7.4.4";
       environment :=
         [ ("KAFKA_BROKER_ID", [Lit "1"]);
           ("KAFKA_ZOOKEEPER_CONNECT", [Lit "zookeeper-service.local:2181"]);
           ("KAFKA_ADVERTISED_LISTENERS",
              ([Lit "PLAINTEXT://"] ++ loadBalancerDnsName "DatabaseNLB" ++ [Lit ":9092"])%list);
           ("KAFKA_LISTENERS", [Lit "PLAINTEXT://:9092"]);
           ("KAFKA_LISTENER_SECURITY_PROTOCOL_MAP", [Lit "PLAINTEXT:PLAINTEXT"]);
           ("KAFKA_INTER_BROKER_LISTENER_NAME", [Lit "PLAINTEXT"]);
           ("KAFKA_OFFSETS_TOPIC_REPLICATION_FACTOR", [Lit "1"]);
           ("KAFKA_AUTO_CREATE_TOPICS_ENABLE", [Lit "true"]);
           ("KAFKA_NUM_PARTITIONS", [Lit "3"]);
           ("KAFKA_DEFAULT_REPLICATION_FACTOR", [Lit "1"]);
           ("KAFKA_MIN_INSYNC_REPLICAS", [Lit "1"]);
           ("KAFKA_UNCLEAN_LEADER_ELECTION_ENABLE", [Lit "false"]);
           ("KAFKA_BROKER_RACK", [Lit "RACK1"]) ];
       portMappings := [9092%N];
       logging := awsLogs "Kafka" |} ;;
  construct "MySQLService"
    (FargateService
       {| cluster := "DatabaseKafkaCluster";
          taskDefinition := "MySQLTaskDef";
          desiredCount := 1;
          securityGroups := ["DbSecurityGroup"];
          vpcSubnets := [privateSubnet1; privateSubnet2];
          enableExecuteCommand := true;
          cloudMapOptions := None |}) ;;
  construct "ZookeeperService"
    (FargateService
       {| cluster := "DatabaseKafkaCluster";
          taskDefinition := "ZookeeperTaskDef";
          desiredCount := 3;
          securityGroups := ["DbSecurityGroup"];
          vpcSubnets := [privateSubnet1; privateSubnet2];
          enableExecuteCommand := false;
          cloudMapOptions := Some "zookeeper-service" |}) ;;
  construct "KafkaService"
    (FargateService
       {| cluster := "DatabaseKafkaCluster";
          taskDefinition := "KafkaTaskDef";
          desiredCount := 3;
          securityGroups := ["DbSecurityGroup"];
          vpcSubnets := [privateSubnet1; privateSubnet2];
          enableExecuteCommand := false;
          cloudMapOptions := Some "kafka-service" |}) ;;
  construct "MySQLTargetGroup" (NetworkTargetGroup (vpcId vpc) 3306 TCP IP []) ;;
  construct "KafkaTargetGroup" (NetworkTargetGroup (vpcId vpc) 9092 TCP IP []) ;;
  addTarget "MySQLTargetGroup" "MySQLService" ;;
  addTarget "KafkaTargetGroup" "KafkaService" ;;
  addListener "DatabaseNLB" "MySQLListener" 3306 TCP ["MySQLTargetGroup"] ;;
  addListener "DatabaseNLB" "KafkaListener" 9092 TCP ["KafkaTargetGroup"] ;;
  construct "ExpenseTrackerServicesNLB"
    (StringParameter "ExpenseTrackerServicesNLB" (loadBalancerDnsName "DatabaseNLB")).

(** ** Deployment

    Deploying a synthesized stack creates its resources.  What the other
    stack can observe afterwards is recorded in the account: every
    [StringParameter] becomes a parameter (creation fails when the name is
    taken) and every [CfnVPC] becomes a network that [Vpc.fromLookup] finds
    under its physical id.  [ρ] gives the physical value of each token. *)

Definition resolveSubnet (ρ : Resolver) (s : Subnet) : Subnet :=
  {| subnetPath := subnetPath s;
     subnetId := [Lit (resolve ρ (subnetId s))];
     availabilityZone := availabilityZone s;
     ipv4CidrBlock := ipv4CidrBlock s;
     routeTableId := [Lit (resolve ρ (routeTableId s))];
     subnetKind := subnetKind s |}.

Definition subnetsOf (id : string) (rs : list (string * Resource)) : list Subnet :=
  omap (λ p, match p.2 with
             | CfnSubnet v s => if decide (v = ref id) then Some s else None
             | _ => None
             end) rs.

Definition describeVpc (ρ : Resolver) (rs : list (string * Resource)) (id : string) (block : Cidr)
  : Vpc :=
  let subs := resolveSubnet ρ <$> subnetsOf id rs in
  {| vpcId := [Lit (ρ (Ref id))];
     vpcCidrBlock := block;
     publicSubnets := ofKind PUBLIC subs;
     privateSubnets := ofKind PRIVATE_WITH_EGRESS subs;
     isolatedSubnets := ofKind PRIVATE_ISOLATED subs |}.

Definition deployResource (ρ : Resolver) (rs : list (string * Resource))
    (entry : string * Resource) (cloud : Cloud) : Result Cloud :=
  match entry.2 with
  | StringParameter key value =>
      match registry cloud !! key with
      | Some _ => Throw (ParameterAlreadyExists key)
      | None => Ok {| zones := zones cloud;
                      registry := <[key := resolve ρ value]> (registry cloud);
                      networks := networks cloud |}
      end
  | CfnVPC block _ =>
      Ok {| zones := zones cloud;
            registry := registry cloud;
            networks := <[ρ (Ref entry.1) := describeVpc ρ rs entry.1 block]> (networks cloud) |}
  | _ => Ok cloud
  end.

Fixpoint deployAll (ρ : Resolver) (rs todo : list (string * Resource)) (cloud : Cloud)
  : Result Cloud :=
  match todo with
  | [] => Ok cloud
  | entry :: rest =>
      match deployResource ρ rs entry cloud with
      | Ok cloud' => deployAll ρ rs rest cloud'
      | Throw e => Throw e
      end
  end.

Definition deploy {A} (ρ : Resolver) (stack : Synth A) (cloud : Cloud) : Result Cloud :=
  match stack cloud emptyStack with
  | (Ok _, st) => deployAll ρ (resources st) (resources st) cloud
  | (Throw e, _) => Throw e
  end.

(** ** Reading a synthesized stack *)

Definition succeeded {A} (r : Result A * State) : Prop :=
  match r.1 with Ok _ => True | Throw _ => False end.

Definition subnetsIn (st : State) : list Subnet :=
  omap (λ p, match p.2 with CfnSubnet _ s => Some s | _ => None end) (resources st).

Definition internetGatewaysIn (st : State) : list string :=
  omap (λ p, match p.2 with CfnInternetGateway => Some p.1 | _ => None end) (resources st).

(** NAT gateways as (construct id, id of the subnet they are placed in). *)
Definition natGatewaysIn (st : State) : list (string * TString) :=
  omap (λ p, match p.2 with CfnNatGateway sub _ => Some (p.1, sub) | _ => None end)
       (resources st).

Definition parametersIn (st : State) : list (string * TString) :=
  omap (λ p, match p.2 with StringParameter k v => Some (k, v) | _ => None end)
       (resources st).

(** The targets of the routes to [0.0.0.0/0] in the route table of a subnet. *)
Definition defaultRoutes (st : State) (s : Subnet) : list RouteTarget :=
  omap (λ p, match p.2 with
             | CfnRoute table dest target =>
                 if decide (table = routeTableId s ∧ dest = anyIpv4) then Some target else None
             | _ => None
             end) (resources st).

Definition servicesIn (st : State) : list (string * FargateServiceProps) :=
  omap (λ p, match p.2 with FargateService props => Some (p.1, props) | _ => None end)
       (resources st).

(** Listeners as (port, protocol, default target groups). *)
Definition listenersIn (st : State) : list (N * Protocol * list string) :=
  omap (λ p, match p.2 with NetworkListener _ port pr gs => Some (port, pr, gs) | _ => None end)
       (resources st).

Definition lookupsIn (st : State) : list string :=
  omap (λ e, match e with LookedUp k => Some k | _ => None end) (trace st).

Definition createdIn (st : State) : list string :=
  omap (λ e, match e with Created i => Some i | _ => None end) (trace st).

(** ** What the platforms do with the declarations *)

(** A packet as a security group sees it: transport protocol, destination
    port for inbound (or remote port for outbound) and the peer's address. *)
Record Packet := { pktProtocol : IpProtocol; pktPort : N; pktPeer : N }.

Definition portMatches (c : Port) (p : Packet) : bool :=
  match c with
  | AllTraffic => true
  | PortRange proto lo hi =>
      bool_decide (proto = pktProtocol p) && (lo <=? pktPort p)%N && (pktPort p <=? hi)%N
  end.

Definition ruleMatches (r : Rule) (p : Packet) : bool :=
  inCidr (pktPeer p) (rulePeer r) && portMatches (rulePort r) p.

(** A security group admits exactly the traffic that one of its rules matches. *)
Definition allowsInbound (sg : Resource) (p : Packet) : bool :=
  match sg with
  | SecurityGroup _ _ ing _ => existsb (λ r, ruleMatches r p) ing
  | _ => false
  end.

Definition allowsOutbound (sg : Resource) (p : Packet) : bool :=
  match sg with
  | SecurityGroup _ _ _ eg => existsb (λ r, ruleMatches r p) eg
  | _ => false
  end.

(** The container platform runs [desiredCount] copies of the task definition
    the service refers to; a replica is the list of its containers. *)
Definition replicasOf (st : State) (svc : FargateServiceProps)
  : list (list (string * ContainerDefinition)) :=
  match findConstruct (taskDefinition svc) (resources st) with
  | Some (FargateTaskDefinition _ _ cs) => replicate (desiredCount svc) cs
  | _ => []
  end.

Definition taskEnvironment (cs : list (string * ContainerDefinition))
  : list (string * TString) :=
  concat ((λ c, environment c.2) <$> cs).

Definition taskPorts (cs : list (string * ContainerDefinition)) : list N :=
  concat ((λ c, portMappings c.2) <$> cs).

(** Workloads as (service id, container ports, desired replica count). *)
Definition workloadsIn (st : State) : list (string * list N * nat) :=
  (λ s, (s.1,
         match findConstruct (taskDefinition s.2) (resources st) with
         | Some (FargateTaskDefinition _ _ cs) => taskPorts cs
         | _ => []
         end,
         desiredCount s.2)) <$> servicesIn st.

(** Target groups as (construct id, port, registered services). *)
Definition targetGroupsIn (st : State) : list (string * N * list string) :=
  omap (λ p, match p.2 with
             | NetworkTargetGroup _ port _ _ ts => Some (p.1, port, ts)
             | _ => None
             end) (resources st).

(** The environment the containers of a service are started with. *)
Definition serviceEnvironment (st : State) (id : string) : list (string * TString) :=
  match findConstruct id (resources st) with
  | Some (FargateService svc) =>
      match findConstruct (taskDefinition svc) (resources st) with
      | Some (FargateTaskDefinition _ _ cs) => taskEnvironment cs
      | _ => []
      end
  | _ => []
  end.

Definition withDesiredCount (n : nat) (svc : FargateServiceProps) : FargateServiceProps :=
  {| cluster := cluster svc;
     taskDefinition := taskDefinition svc;
     desiredCount := n;
     securityGroups := securityGroups svc;
     vpcSubnets := vpcSubnets svc;
     enableExecuteCommand := enableExecuteCommand svc;
     cloudMapOptions := cloudMapOptions svc |}.

Fixpoint envLookup (key : string) (e : list (string * TString)) : option TString :=
  match e with
  | [] => None
  | (k, v) :: rest => if decide (k = key) then Some v else envLookup key rest
  end.

(** ** Vocabulary of the properties *)

Definition region (azs : list string) : Cloud :=
  {| zones := azs; registry := ∅; networks := ∅ |}.

(** What the specification promises of a network for [azs] (the zones it
    spans): one public and one private subnet per zone, one internet
    gateway, and one NAT gateway per zone, the i-th in the public subnet of
    the i-th zone. *)
Definition networkShape (azs : list string) (r : Result Vpc * State) : Prop :=
  succeeded r ∧
  length (subnetsIn r.2) = 2 * length azs ∧
  availabilityZone <$> ofKind PUBLIC (subnetsIn r.2) = azs ∧
  availabilityZone <$> ofKind PRIVATE_WITH_EGRESS (subnetsIn r.2) = azs ∧
  length (internetGatewaysIn r.2) = 1 ∧
  length (natGatewaysIn r.2) = length azs ∧
  (natGatewaysIn r.2).*2 = subnetId <$> ofKind PUBLIC (subnetsIn r.2).

(** The zone a route target serves from: for a NAT gateway, the zone of the
    public subnet it is placed in. *)
Definition natGatewayZone (st : State) (target : RouteTarget) : option string :=
  match target with
  | ViaNatGateway g =>
      n ← list_find (λ n, ref n.1 = g) (natGatewaysIn st);
      q ← list_find (λ q, subnetId q = n.2.2) (ofKind PUBLIC (subnetsIn st));
      Some (availabilityZone q.2)
  | ViaGateway _ => None
  end.

(** Every private subnet has one default route, to a NAT gateway that sits in
    a public subnet of the subnet's own zone; every public subnet has one
    default route, to the one internet gateway. *)
Definition routesFollowZones (st : State) : Prop :=
  Forall (λ p, ∃ target,
            defaultRoutes st p = [target] ∧
            natGatewayZone st target = Some (availabilityZone p))
         (ofKind PRIVATE_WITH_EGRESS (subnetsIn st))
  ∧ ∃ igw, internetGatewaysIn st = [igw] ∧
           Forall (λ q, defaultRoutes st q = [ViaGateway (ref igw)])
                  (ofKind PUBLIC (subnetsIn st)).

(** The parameters the network stack writes, and the ones the workload
    stack reads. *)
Definition publishedKeys : list string :=
  ["VpcId"; "PublicSubnet-0"; "PublicSubnet-1"; "PrivateSubnet-0"; "PrivateSubnet-1"].

Definition expectedKeys : list string := ["VpcId"; "PrivateSubnet-0"; "PrivateSubnet-1"].

(** The registry after the network stack has been deployed over [reg]. *)
Definition deployedRegistry (ρ : Resolver) (reg : gmap string string) : gmap string string :=
  <["PrivateSubnet-1" := ρ (Ref "myVPC/private-subnetSubnet2")]>
  (<["PrivateSubnet-0" := ρ (Ref "myVPC/private-subnetSubnet1")]>
  (<["PublicSubnet-1" := ρ (Ref "myVPC/public-subnetSubnet2")]>
  (<["PublicSubnet-0" := ρ (Ref "myVPC/public-subnetSubnet1")]>
  (<["VpcId" := ρ (Ref "myVPC")]> reg)))).

Definition logged (e : Event) (st : State) : State :=
  {| resources := resources st; trace := trace st ++ [e] |}.

(** The account as the workload stack needs it: the three parameters
    resolve, and the network they name exists. *)
Record resolvable (env : Cloud) (vid : string) (net : Vpc) (s1 s2 : string) : Prop := {
  has_vpc_id : registry env !! "VpcId" = Some vid;
  has_network : networks env !! vid = Some net;
  has_subnet_0 : registry env !! "PrivateSubnet-0" = Some s1;
  has_subnet_1 : registry env !! "PrivateSubnet-1" = Some s2
}.

(** C6 as stated: every parameter the account holds after the network stack
    has published is looked up by the workload stack. *)
Definition looksUpAllPublished (env : Cloud) : Prop :=
  ∀ k, is_Some (registry env !! k) →
       k ∈ lookupsIn (ExpenseTrackerServices env emptyStack).2.


(** *** Concrete accounts for the examples *)

(** The physical id of a resource is its path behind a prefix. *)
Definition physicalIds : Resolver :=
  λ t, match t with
       | Ref i => "id-" +:+ i
       | GetAtt i a => i +:+ "." +:+ a
       end.

Definition threeZones : Cloud := region ["zone-a"; "zone-b"; "zone-c"].
Definition oneZone : Cloud := region ["zone-a"].

(** The account after the network stack has been deployed into a fresh
    three-zone region. *)
Definition deployedCloud : Cloud :=
  match deploy physicalIds ExpenseTrackerServicesDeployStack threeZones with
  | Ok cloud => cloud
  | Throw _ => threeZones
  end.

Definition deployedNetwork : Vpc :=
  describeVpc physicalIds
    (resources (ExpenseTrackerServicesDeployStack threeZones emptyStack).2)
    "myVPC" (10∙0∙0∙0 // 16).

Definition subnetA : string := "id-myVPC/private-subnetSubnet1".
Definition subnetB : string := "id-myVPC/private-subnetSubnet2".

(** *** The loops of the network stack on their own

    The four [forEach] loops of src/lib/infra-stack.ts (lines 49-55, 58-64,
    73-78 and 81-86), over any list of subnets. *)

Definition privateRoutes (subs : list Subnet) : Synth unit :=
  forEach subs (λ subnet index,
    construct ("PrivateRouteToNatGateway-" +:+ pretty index)
      (CfnRoute (routeTableId subnet) anyIpv4
         (ViaNatGateway (if decide (index = 0) then ref "NatGatewayOne"
                         else ref "NatGatewayTwo")))).

Definition publicRoutes (subs : list Subnet) : Synth unit :=
  forEach subs (λ subnet index,
    construct ("PublicRouteToInternetGateway-" +:+ pretty index)
      (CfnRoute (routeTableId subnet) anyIpv4 (ViaGateway (ref "InternetGateway")))).

Definition exportPublicSubnets (subs : list Subnet) : Synth unit :=
  forEach subs (λ subnet index,
    construct ("PublicSubnetExport-" +:+ pretty index)
      (StringParameter ("PublicSubnet-" +:+ pretty index) (subnetId subnet))).

Definition exportPrivateSubnets (subs : list Subnet) : Synth unit :=
  forEach subs (λ subnet index,
    construct ("PrivateSubnetExport-" +:+ pretty index)
      (StringParameter ("PrivateSubnet-" +:+ pretty index) (subnetId subnet))).

(** What a loop that adds the construct [mk x i] under the id [prefix-i] for
    each element appends to the tree, counting from [k]. *)
Definition numbered {A} (prefix : string) (mk : A → nat → Resource) (k : nat) (xs : list A)
  : list (string * Resource) :=
  imap (λ j x, (prefix +:+ pretty (k + j), mk x (k + j))) xs.

(** No construct of the tree has an id that starts with [prefix] and ends
    in a number. *)
Definition unusedIds (prefix : string) (st : State) : Prop :=
  ∀ i : nat, findConstruct (prefix +:+ pretty i) (resources st) = None.

(** *** More views of the network stack *)

Definition elasticIpsIn (st : State) : list string :=
  omap (λ p, match p.2 with CfnEIP => Some p.1 | _ => None end) (resources st).

Definition allocationsIn (st : State) : list TString :=
  omap (λ p, match p.2 with CfnNatGateway _ a => Some a | _ => None end) (resources st).

(** Gateway attachments as (network, internet gateway). *)
Definition attachmentsIn (st : State) : list (TString * TString) :=
  omap (λ p, match p.2 with CfnVPCGatewayAttachment v g => Some (v, g) | _ => None end)
       (resources st).

Definition networksIn (st : State) : list string :=
  omap (λ p, match p.2 with CfnVPC _ _ => Some p.1 | _ => None end) (resources st).

(** *** More views of the workload stack *)

Definition servicePorts (st : State) (svc : FargateServiceProps) : list N :=
  match findConstruct (taskDefinition svc) (resources st) with
  | Some (FargateTaskDefinition _ _ cs) => taskPorts cs
  | _ => []
  end.

Definition securityGroupsOf (st : State) (svc : FargateServiceProps) : list Resource :=
  omap (λ id, findConstruct id (resources st)) (securityGroups svc).

(** The network every construct of the workload stack is attached to. *)
Definition attachedNetworks (st : State) : list TString :=
  omap (λ p, match p.2 with
             | SecurityGroup v _ _ _ => Some v
             | Cluster v _ => Some v
             | NetworkLoadBalancer v _ _ => Some v
             | NetworkTargetGroup v _ _ _ _ => Some v
             | _ => None
             end) (resources st).

(** The context the stack reported as missing, as the errors the toolkit
    raises when it cannot fetch it from the account. *)
Definition missingIn (st : State) : list Error :=
  omap (λ e, match e with
             | MissingContext k => Some (ParameterNotFound k)
             | MissingVpc i => Some (VpcNotFound i)
             | _ => None
             end) (trace st).

(** The toolkit's deploy command: a stack that reported missing context is
    not deployed, since the toolkit must first fetch that context from the
    account, where it does not exist; otherwise the stack is deployed. *)
Definition cdkDeploy {A} (ρ : Resolver) (stack : Synth A) (cloud : Cloud) : Result Cloud :=
  match stack cloud emptyStack with
  | (Ok _, st) =>
      match missingIn st with
      | [] => deployAll ρ (resources st) (resources st) cloud
      | e :: _ => Throw e
      end
  | (Throw e, _) => Throw e
  end.


(** The constructs of the workload stack, in the order of the source. *)
Definition workloadConstructs : list string :=
  [ "DbSecurityGroup"; "DatabaseKafkaCluster"; "DatabaseNLB";
    "MySQLTaskDef"; "ZookeeperTaskDef"; "KafkaTaskDef";
    "MySQLService"; "ZookeeperService"; "KafkaService";
    "MySQLTargetGroup"; "KafkaTargetGroup";
    "DatabaseNLB/MySQLListener"; "DatabaseNLB/KafkaListener";
    "ExpenseTrackerServicesNLB" ].

(** *** Proof steps *)

(** A context with at least two zones, opened up. *)
Ltac two_zones env H :=
  let zs := fresh "zs" in
  let reg := fresh "reg" in
  let nets := fresh "nets" in
  destruct env as [zs reg nets];
  destruct zs as [|?az1 [|?az2 ?more]];
  simpl in H; try lia.

Ltac by_run := vm_compute; reflexivity.

(** Replaces a term by its value. *)
Ltac evaluate t :=
  let v := eval vm_compute in t in
  replace t with v by (vm_compute; reflexivity).

(** Runs the network stack in the goal. *)
Ltac run_network :=
  match goal with
  | |- context [ExpenseTrackerServicesDeployStack ?e ?s] =>
      let r := fresh "r" in
      let E := fresh "E" in
      remember (ExpenseTrackerServicesDeployStack e s) as r eqn:E;
      vm_compute in E; subst r
  end.

(** Names the state of a finished run. *)
Ltac name_state :=
  match goal with
  | |- context [(?a, ?s).2] =>
      let st := fresh "st" in
      set (st := s) in *; change ((a, st).2) with st; try change ((a, st).1) with a
  end.

Ltac step_deploy :=
  cbn [deployAll deployResource snd fst registry zones networks resources].

(** * Properties *)

(** ** The network stack *)

Example three_zones_run :
  let r := ExpenseTrackerServicesDeployStack threeZones emptyStack in
  succeeded r ∧
  availabilityZone <$> subnetsIn r.2 = ["zone-a"; "zone-b"; "zone-a"; "zone-b"] ∧
  (natGatewaysIn r.2).*1 = ["NatGatewayOne"; "NatGatewayTwo"].
Proof. vm_compute. auto. Qed.

Example one_zone_run :
  (ExpenseTrackerServicesDeployStack oneZone emptyStack).1
  = Throw (TypeError "vpc.publicSubnets[1]").
Proof. vm_compute. auto. Qed.

(** C1, as stated, fails: in a region with one zone the stack throws when it
    reads the second public subnet, so its result has the promised shape for
    no list of zones, the one zone of the region included. *)
Lemma network_shape_fails_in_one_zone :
  ¬ ∃ azs, networkShape azs (ExpenseTrackerServicesDeployStack oneZone emptyStack).
Proof.
  intros (azs & Hrun & _).
  vm_compute in Hrun. exact Hrun.
Qed.

(** C1, amended: the stack asks for two zones; in every region that has at
    least two it declares four subnets, one public and one private in each of
    the first two zones, one internet gateway and two NAT gateways, the i-th
    in the public subnet of the i-th zone. *)
Theorem deploy_stack_network_shape (env : Cloud) :
  (2 ≤ length (zones env))%nat →
  networkShape (take 2 (zones env)) (ExpenseTrackerServicesDeployStack env emptyStack).
Proof.
  intros H. two_zones env H.
  vm_compute. repeat split; reflexivity.
Qed.

Lemma deploy_stack_network_shape_witness :
  (2 ≤ length (zones threeZones))%nat ∧
  networkShape ["zone-a"; "zone-b"] (ExpenseTrackerServicesDeployStack threeZones emptyStack).
Proof.
  split; [simpl; lia|].
  apply (deploy_stack_network_shape threeZones). simpl. lia.
Defined.

(** C3: in the network the stack declares, every private subnet's default
    route targets a NAT gateway in a public subnet of the same zone, and
    every public subnet's default route targets the single internet
    gateway. *)
Theorem deploy_stack_routes (env : Cloud) :
  (2 ≤ length (zones env))%nat →
  let r := ExpenseTrackerServicesDeployStack env emptyStack in
  succeeded r ∧
  length (ofKind PRIVATE_WITH_EGRESS (subnetsIn r.2)) = 2%nat ∧
  length (ofKind PUBLIC (subnetsIn r.2)) = 2%nat ∧
  routesFollowZones r.2.
Proof.
  intros H. two_zones env H. cbv zeta. run_network.
  split; [exact I|]. name_state.
  split; [by_run|]. split; [by_run|]. unfold routesFollowZones.
  evaluate (ofKind PRIVATE_WITH_EGRESS (subnetsIn st)).
  evaluate (ofKind PUBLIC (subnetsIn st)).
  split.
  - repeat apply Forall_cons_2; [| |apply Forall_nil_2].
    + exists (ViaNatGateway (ref "NatGatewayOne")). split; by_run.
    + exists (ViaNatGateway (ref "NatGatewayTwo")). split; by_run.
  - exists "InternetGateway". split; [by_run|].
    repeat apply Forall_cons_2; [| |apply Forall_nil_2]; by_run.
Qed.

Lemma deploy_stack_routes_witness :
  (2 ≤ length (zones threeZones))%nat ∧
  let r := ExpenseTrackerServicesDeployStack threeZones emptyStack in
  succeeded r ∧
  length (ofKind PRIVATE_WITH_EGRESS (subnetsIn r.2)) = 2%nat ∧
  length (ofKind PUBLIC (subnetsIn r.2)) = 2%nat ∧
  routesFollowZones r.2.
Proof.
  split; [simpl; lia|].
  apply (deploy_stack_routes threeZones). simpl. lia.
Defined.

(** *** Deploying the network stack *)

Lemma deploy_network (ρ : Resolver) (env : Cloud) :
  (2 ≤ length (zones env))%nat →
  Forall (λ k, registry env !! k = None) publishedKeys →
  ∃ net : Vpc,
    deploy ρ ExpenseTrackerServicesDeployStack env
    = Ok {| zones := zones env;
            registry := deployedRegistry ρ (registry env);
            networks := <[ρ (Ref "myVPC") := net]> (networks env) |}
    ∧ vpcCidrBlock net = 10∙0∙0∙0 // 16
    ∧ subnetId <$> publicSubnets net
      = [ [Lit (ρ (Ref "myVPC/public-subnetSubnet1"))];
          [Lit (ρ (Ref "myVPC/public-subnetSubnet2"))] ]
    ∧ subnetId <$> privateSubnets net
      = [ [Lit (ρ (Ref "myVPC/private-subnetSubnet1"))];
          [Lit (ρ (Ref "myVPC/private-subnetSubnet2"))] ].
Proof.
  intros H Hfree. two_zones env H.
  unfold deploy. run_network. cbv iota beta.
  match goal with |- context [deployAll _ ?s ?s _] => set (rs := s) at 1 end.
  exists (describeVpc ρ rs "myVPC" (10∙0∙0∙0 // 16)).
  split; [|subst rs; repeat split; by_run].
  step_deploy. unfold publishedKeys in Hfree.
  repeat match goal with
         | H : Forall _ (_ :: _) |- _ => apply Forall_cons_1 in H; destruct H as [? H]
         end.
  cbv beta in *; cbn [registry] in *.
  repeat (rewrite ?lookup_insert_ne by done;
          match goal with
          | H : ?r !! ?k = None |- context [?r !! ?k] => rewrite H
          end;
          step_deploy).
  reflexivity.
Qed.

Lemma deployedRegistry_lookups (ρ : Resolver) (reg : gmap string string) :
  deployedRegistry ρ reg !! "VpcId" = Some (ρ (Ref "myVPC")) ∧
  deployedRegistry ρ reg !! "PublicSubnet-0" = Some (ρ (Ref "myVPC/public-subnetSubnet1")) ∧
  deployedRegistry ρ reg !! "PublicSubnet-1" = Some (ρ (Ref "myVPC/public-subnetSubnet2")) ∧
  deployedRegistry ρ reg !! "PrivateSubnet-0" = Some (ρ (Ref "myVPC/private-subnetSubnet1")) ∧
  deployedRegistry ρ reg !! "PrivateSubnet-1" = Some (ρ (Ref "myVPC/private-subnetSubnet2")).
Proof.
  unfold deployedRegistry.
  repeat split; rewrite ?lookup_insert_ne by done; apply lookup_insert_eq.
Qed.

(** Deployment adds the five parameters and nothing else to the registry. *)
Lemma deployedRegistry_dom (ρ : Resolver) (reg : gmap string string) :
  dom (deployedRegistry ρ reg) = list_to_set publishedKeys ∪ dom reg.
Proof.
  unfold deployedRegistry, publishedKeys. rewrite !dom_insert_L.
  cbn [list_to_set foldr]. apply set_eq. intros k.
  rewrite !elem_of_union, !elem_of_singleton, elem_of_empty. tauto.
Qed.

(** C2: with its two zones and the block 10.0.0.0/16 the network stack
    declares two public and two private subnets of size /24, two NAT
    gateways and one internet gateway, and publishes exactly five
    parameters: the network id and the four subnet ids. *)
Theorem scenario_network (ρ : Resolver) (env : Cloud) :
  (2 ≤ length (zones env))%nat →
  Forall (λ k, registry env !! k = None) publishedKeys →
  let r := ExpenseTrackerServicesDeployStack env emptyStack in
  succeeded r ∧
  ipv4CidrBlock <$> ofKind PUBLIC (subnetsIn r.2) = [10∙0∙0∙0 // 24; 10∙0∙1∙0 // 24] ∧
  ipv4CidrBlock <$> ofKind PRIVATE_WITH_EGRESS (subnetsIn r.2)
    = [10∙0∙2∙0 // 24; 10∙0∙3∙0 // 24] ∧
  length (subnetsIn r.2) = 4%nat ∧
  length (natGatewaysIn r.2) = 2%nat ∧
  length (internetGatewaysIn r.2) = 1%nat ∧
  parametersIn r.2
    = [ ("VpcId", ref "myVPC");
        ("PublicSubnet-0", ref "myVPC/public-subnetSubnet1");
        ("PublicSubnet-1", ref "myVPC/public-subnetSubnet2");
        ("PrivateSubnet-0", ref "myVPC/private-subnetSubnet1");
        ("PrivateSubnet-1", ref "myVPC/private-subnetSubnet2") ] ∧
  ∃ cloud, deploy ρ ExpenseTrackerServicesDeployStack env = Ok cloud ∧
           registry cloud = deployedRegistry ρ (registry env).
Proof.
  intros H Hfree.
  destruct (deploy_network ρ env H Hfree) as (net & Hd & _).
  two_zones env H. cbv zeta. run_network.
  split; [exact I|]. name_state.
  repeat (split; [by_run|]).
  eexists. split; [exact Hd|reflexivity].
Qed.

Lemma scenario_network_witness :
  ((2 ≤ length (zones threeZones))%nat ∧
   Forall (λ k, registry threeZones !! k = None) publishedKeys) ∧
  let r := ExpenseTrackerServicesDeployStack threeZones emptyStack in
  succeeded r ∧
  ipv4CidrBlock <$> ofKind PUBLIC (subnetsIn r.2) = [10∙0∙0∙0 // 24; 10∙0∙1∙0 // 24] ∧
  ipv4CidrBlock <$> ofKind PRIVATE_WITH_EGRESS (subnetsIn r.2)
    = [10∙0∙2∙0 // 24; 10∙0∙3∙0 // 24] ∧
  length (subnetsIn r.2) = 4%nat ∧
  length (natGatewaysIn r.2) = 2%nat ∧
  length (internetGatewaysIn r.2) = 1%nat ∧
  parametersIn r.2
    = [ ("VpcId", ref "myVPC");
        ("PublicSubnet-0", ref "myVPC/public-subnetSubnet1");
        ("PublicSubnet-1", ref "myVPC/public-subnetSubnet2");
        ("PrivateSubnet-0", ref "myVPC/private-subnetSubnet1");
        ("PrivateSubnet-1", ref "myVPC/private-subnetSubnet2") ] ∧
  ∃ cloud, deploy physicalIds ExpenseTrackerServicesDeployStack threeZones = Ok cloud ∧
           registry cloud = deployedRegistry physicalIds (registry threeZones).
Proof.
  split; [split; [simpl; lia|unfold publishedKeys; repeat constructor]|].
  apply (scenario_network physicalIds threeZones).
  - simpl. lia.
  - unfold publishedKeys. repeat constructor.
Defined.

Example deployedCloud_registry :
  size (registry deployedCloud) = 5%nat ∧
  Forall (λ k, is_Some (registry deployedCloud !! k)) publishedKeys.
Proof.
  split; [by_run|].
  unfold publishedKeys. repeat apply Forall_cons_2; [..|apply Forall_nil_2];
    apply (bool_decide_unpack _); by_run.
Qed.

(** ** The workload stack *)

Lemma bind_valueFromLookup_Some {B} (k v : string) (f : string → Synth B)
    (env : Cloud) (st : State) :
  registry env !! k = Some v →
  bind (valueFromLookup k) f env st = f v env (logged (LookedUp k) st).
Proof.
  intros H. unfold valueFromLookup, bind, log, ask.
  cbv beta iota. rewrite H. reflexivity.
Qed.

Lemma bind_valueFromLookup_None {B} (k : string) (f : string → Synth B)
    (env : Cloud) (st : State) :
  registry env !! k = None →
  bind (valueFromLookup k) f env st
  = f ("dummy-value-for-" +:+ k) env (logged (MissingContext k) (logged (LookedUp k) st)).
Proof.
  intros H. unfold valueFromLookup, bind, log, ask.
  cbv beta iota. rewrite H. reflexivity.
Qed.

Lemma bind_fromLookup_Some {B} (id k : string) (v : Vpc) (f : Vpc → Synth B)
    (env : Cloud) (st : State) :
  networks env !! k = Some v →
  bind (Vpc_fromLookup id k) f env st = f v env (logged (VpcLookedUp k) st).
Proof.
  intros H. unfold Vpc_fromLookup, bind, log, ask.
  cbv beta iota. rewrite H. reflexivity.
Qed.

Lemma bind_fromLookup_None {B} (id k : string) (f : Vpc → Synth B)
    (env : Cloud) (st : State) :
  networks env !! k = None →
  bind (Vpc_fromLookup id k) f env st
  = f dummyVpc env (logged (MissingVpc k) (logged (VpcLookedUp k) st)).
Proof.
  intros H. unfold Vpc_fromLookup, bind, log, ask.
  cbv beta iota. rewrite H. reflexivity.
Qed.

(** Runs the workload stack in the goal, given [H : resolvable env vid net s1 s2]. *)
Ltac run_services H :=
  unfold ExpenseTrackerServices;
  rewrite (bind_valueFromLookup_Some _ _ _ _ _ (has_vpc_id _ _ _ _ _ H)); cbv beta;
  rewrite (bind_fromLookup_Some _ _ _ _ _ _ (has_network _ _ _ _ _ H)); cbv beta;
  rewrite (bind_valueFromLookup_Some _ _ _ _ _ (has_subnet_0 _ _ _ _ _ H)); cbv beta zeta;
  rewrite (bind_valueFromLookup_Some _ _ _ _ _ (has_subnet_1 _ _ _ _ _ H)); cbv beta zeta;
  match goal with
  | |- context [bind ?m ?k ?e ?s] =>
      let r := fresh "r" in
      let E := fresh "E" in
      remember (bind m k e s) as r eqn:E;
      vm_compute in E; subst r
  end.

Example deployedCloud_resolvable :
  resolvable deployedCloud "id-myVPC" deployedNetwork subnetA subnetB.
Proof. constructor; vm_compute; reflexivity. Qed.

Lemma inCidr_any (ip : N) : inCidr ip anyIpv4 = true.
Proof.
  unfold inCidr, anyIpv4. cbn [cidrPrefix cidrBase].
  change (netmask 0) with 0%N. rewrite !N.land_0_r. reflexivity.
Qed.

(** Opens the workload stack in the goal into the sixteen ways its four
    look-ups can be answered. *)
Ltac lookup_cases env :=
  unfold ExpenseTrackerServices;
  let v := fresh "vid" in
  let E := fresh "Evid" in
  destruct (registry env !! "VpcId") as [v|] eqn:E;
  [ rewrite (bind_valueFromLookup_Some _ _ _ _ _ E)
  | rewrite (bind_valueFromLookup_None _ _ _ _ E) ];
  cbv beta;
  match goal with
  | |- context [bind (Vpc_fromLookup _ ?k) _ _ _] =>
      let n := fresh "net" in
      let En := fresh "Enet" in
      destruct (networks env !! k) as [n|] eqn:En;
      [ rewrite (bind_fromLookup_Some _ _ _ _ _ _ En); destruct n as [? ? ? ? ?]
      | rewrite (bind_fromLookup_None _ _ _ _ _ En) ]
  end;
  cbv beta;
  let a := fresh "s1" in
  let Ea := fresh "Es1" in
  destruct (registry env !! "PrivateSubnet-0") as [a|] eqn:Ea;
  [ rewrite (bind_valueFromLookup_Some _ _ _ _ _ Ea)
  | rewrite (bind_valueFromLookup_None _ _ _ _ Ea) ];
  cbv beta zeta;
  let b := fresh "s2" in
  let Eb := fresh "Es2" in
  destruct (registry env !! "PrivateSubnet-1") as [b|] eqn:Eb;
  [ rewrite (bind_valueFromLookup_Some _ _ _ _ _ Eb)
  | rewrite (bind_valueFromLookup_None _ _ _ _ Eb) ];
  cbv beta zeta.

(** Runs what is left of the stack once its look-ups are answered. *)
Ltac finish_run :=
  match goal with
  | |- context [bind ?m ?k ?e ?s] =>
      let r := fresh "r" in
      let E := fresh "E" in
      remember (bind m k e s) as r eqn:E;
      vm_compute in E; subst r
  end.

Ltac by_decide := apply (bool_decide_unpack _); vm_compute; reflexivity.




(** C6, as stated, fails: after the network stack has published its five
    parameters, the workload stack never looks up [PublicSubnet-0]. *)
Lemma public_subnet_ids_not_looked_up : ¬ looksUpAllPublished deployedCloud.
Proof.
  intros Hall.
  assert (Hpub : is_Some (registry deployedCloud !! "PublicSubnet-0")).
  { exists "id-myVPC/public-subnetSubnet1". by_run. }
  apply Hall in Hpub.
  assert (E : lookupsIn (ExpenseTrackerServices deployedCloud emptyStack).2
              = ["VpcId"; "PrivateSubnet-0"; "PrivateSubnet-1"]) by by_run.
  rewrite E, !elem_of_cons, elem_of_nil in Hpub. clear E Hall.
  destruct Hpub as [Hk|[Hk|[Hk|[]]]]; discriminate Hk.
Qed.

Section Workloads.

(** An account in which the three look-ups of the workload stack succeed. *)
Context (env : Cloud) (vid : string) (net : Vpc) (s1 s2 : string).
Hypothesis account : resolvable env vid net s1 s2.

(** C4: the security group of the workload stack lets inbound traffic in
    exactly on TCP ports 3306, 9092 and 2181 from the address block of the
    network, nothing else, and lets all outbound traffic out. *)
Theorem security_boundary :
  let r := ExpenseTrackerServices env emptyStack in
  succeeded r ∧
  ∃ sg, findConstruct "DbSecurityGroup" (resources r.2) = Some sg ∧
        (∀ p, allowsInbound sg p = true ↔
              pktProtocol p = IpTcp ∧
              pktPort p ∈ [3306; 9092; 2181]%N ∧
              inCidr (pktPeer p) (vpcCidrBlock net) = true) ∧
        (∀ p, allowsOutbound sg p = true).
Proof.
  cbv zeta. run_services account.
  split; [exact I|]. name_state.
  evaluate (findConstruct "DbSecurityGroup" (resources st)).
  eexists. split; [reflexivity|]. split.
  - intros [proto port peer].
    cbn [allowsInbound existsb]. unfold ruleMatches, portMatches.
    cbn [rulePeer rulePort pktPeer pktPort pktProtocol].
    change (match net with {| vpcCidrBlock := b |} => b end) with (vpcCidrBlock net).
    rewrite !orb_true_iff, !andb_true_iff, !bool_decide_eq_true, !N.leb_le.
    rewrite !elem_of_cons, elem_of_nil.
    split.
    + intros [(Hc & (-> & ?) & ?)|[(Hc & (-> & ?) & ?)|[(Hc & (-> & ?) & ?)|?]]];
        try discriminate; (split; [reflexivity|split; [|exact Hc]]).
      * left. lia.
      * right. left. lia.
      * right. right. left. lia.
    + intros (-> & [->|[->|[->|[]]]] & Hc).
      * left. repeat split; [exact Hc|lia|lia].
      * right. left. repeat split; [exact Hc|lia|lia].
      * right. right. left. repeat split; [exact Hc|lia|lia].
  - intros p. cbn [allowsOutbound existsb].
    unfold ruleMatches, portMatches. cbn [rulePeer rulePort].
    change {| cidrBase := 0; cidrPrefix := 0 |} with anyIpv4.
    rewrite inCidr_any. reflexivity.
Qed.

(** C5: the workload stack declares exactly three workloads, the database
    with one replica, the coordination service and the broker with three
    each, and exactly two listeners, on 3306 and 9092, each with one target
    group; no listener serves port 2181. *)
Theorem workloads_and_listeners :
  let r := ExpenseTrackerServices env emptyStack in
  succeeded r ∧
  workloadsIn r.2
    = [ ("MySQLService", [3306%N], 1%nat);
        ("ZookeeperService", [2181%N], 3%nat);
        ("KafkaService", [9092%N], 3%nat) ] ∧
  listenersIn r.2
    = [ (3306%N, TCP, ["MySQLTargetGroup"]); (9092%N, TCP, ["KafkaTargetGroup"]) ] ∧
  targetGroupsIn r.2
    = [ ("MySQLTargetGroup", 3306%N, ["MySQLService"]);
        ("KafkaTargetGroup", 9092%N, ["KafkaService"]) ] ∧
  2181%N ∉ (listenersIn r.2).*1.*1.
Proof.
  cbv zeta. run_services account.
  split; [exact I|]. name_state.
  evaluate (listenersIn st).
  repeat (split; [by_run|]).
  cbn [fmap list_fmap fst]. rewrite !not_elem_of_cons. repeat split; try discriminate.
  apply not_elem_of_nil.
Qed.

(** C6, amended: the workload stack performs exactly three registry
    look-ups, for the network id and the two private-subnet ids, in this
    order and before it creates any resource; the public-subnet ids that the
    network stack also publishes are not read. *)
Theorem services_lookups :
  let r := ExpenseTrackerServices env emptyStack in
  succeeded r ∧
  lookupsIn r.2 = ["VpcId"; "PrivateSubnet-0"; "PrivateSubnet-1"] ∧
  trace r.2
    = ([LookedUp "VpcId"; VpcLookedUp vid; LookedUp "PrivateSubnet-0"; LookedUp "PrivateSubnet-1"]
       ++ (Created <$> createdIn r.2))%list ∧
  length (createdIn r.2) = length (resources r.2) ∧
  ("PublicSubnet-0" ∉ lookupsIn r.2) ∧ ("PublicSubnet-1" ∉ lookupsIn r.2).
Proof.
  cbv zeta. run_services account.
  split; [exact I|]. name_state.
  evaluate (lookupsIn st).
  repeat (split; [by_run|]).
  rewrite !not_elem_of_cons. repeat split; try discriminate; apply not_elem_of_nil.
Qed.

(** C9: the workload stack publishes one parameter, under the key
    [ExpenseTrackerServicesNLB]: the DNS name of the load balancer
    [DatabaseNLB]; the broker's advertised listener is built from the same
    token, so for every address deployment resolves it to, the registry
    holds that address and the listener is that address on port 9092. *)
Theorem load_balancer_address (ρ : Resolver) :
  registry env !! "ExpenseTrackerServicesNLB" = None →
  let r := ExpenseTrackerServices env emptyStack in
  succeeded r ∧
  findConstruct "DatabaseNLB" (resources r.2)
    = Some (NetworkLoadBalancer (vpcId net) false [[Lit s1]; [Lit s2]]) ∧
  parametersIn r.2
    = [("ExpenseTrackerServicesNLB", [Tok (GetAtt "DatabaseNLB" "DNSName")])] ∧
  envLookup "KAFKA_ADVERTISED_LISTENERS" (serviceEnvironment r.2 "KafkaService")
    = Some [Lit "PLAINTEXT://"; Tok (GetAtt "DatabaseNLB" "DNSName"); Lit ":9092"] ∧
  resolve ρ [Lit "PLAINTEXT://"; Tok (GetAtt "DatabaseNLB" "DNSName"); Lit ":9092"]
    = "PLAINTEXT://" +:+ ρ (GetAtt "DatabaseNLB" "DNSName") +:+ ":9092" ∧
  ∃ cloud, deploy ρ ExpenseTrackerServices env = Ok cloud ∧
           registry cloud
           = <["ExpenseTrackerServicesNLB" := ρ (GetAtt "DatabaseNLB" "DNSName")]>
               (registry env).
Proof.
  intros Hfree. cbv zeta. unfold deploy. run_services account. cbv iota beta.
  split; [exact I|]. name_state.
  split; [by_run|]. split; [by_run|]. split; [by_run|]. split; [reflexivity|].
  subst st. step_deploy. rewrite Hfree. eexists. split; reflexivity.
Qed.

(** C10: the broker service runs three replicas of one task definition, so
    every replica gets the same environment, with broker id "1" and rack
    "RACK1"; this holds for any replica count. *)
Theorem broker_replicas_share_identity :
  let r := ExpenseTrackerServices env emptyStack in
  succeeded r ∧
  ∃ svc, findConstruct "KafkaService" (resources r.2) = Some (FargateService svc) ∧
         desiredCount svc = 3%nat ∧
         length (replicasOf r.2 svc) = 3%nat ∧
         ∀ n : nat,
           length (replicasOf r.2 (withDesiredCount n svc)) = n ∧
           (∀ a b, a ∈ replicasOf r.2 (withDesiredCount n svc) →
                   b ∈ replicasOf r.2 (withDesiredCount n svc) →
                   taskEnvironment a = taskEnvironment b) ∧
           Forall (λ replica,
                     envLookup "KAFKA_BROKER_ID" (taskEnvironment replica) = Some [Lit "1"] ∧
                     envLookup "KAFKA_BROKER_RACK" (taskEnvironment replica)
                       = Some [Lit "RACK1"])
                  (replicasOf r.2 (withDesiredCount n svc)).
Proof.
  cbv zeta. run_services account.
  split; [exact I|]. name_state.
  evaluate (findConstruct "KafkaService" (resources st)).
  eexists. split; [reflexivity|]. split; [reflexivity|]. split; [by_run|].
  intros n. unfold replicasOf, withDesiredCount. cbn [taskDefinition desiredCount].
  evaluate (findConstruct "KafkaTaskDef" (resources st)).
  split; [apply length_replicate|]. split.
  - intros a b Ha Hb.
    apply elem_of_replicate in Ha as [-> _]. apply elem_of_replicate in Hb as [-> _].
    reflexivity.
  - apply Forall_replicate. split; by_run.
Qed.

End Workloads.

Lemma security_boundary_witness :
  resolvable deployedCloud "id-myVPC" deployedNetwork subnetA subnetB ∧
  let r := ExpenseTrackerServices deployedCloud emptyStack in
  succeeded r ∧
  ∃ sg, findConstruct "DbSecurityGroup" (resources r.2) = Some sg ∧
        (∀ p, allowsInbound sg p = true ↔
              pktProtocol p = IpTcp ∧
              pktPort p ∈ [3306; 9092; 2181]%N ∧
              inCidr (pktPeer p) (vpcCidrBlock deployedNetwork) = true) ∧
        (∀ p, allowsOutbound sg p = true).
Proof.
  assert (H : resolvable deployedCloud "id-myVPC" deployedNetwork subnetA subnetB)
    by (constructor; vm_compute; reflexivity).
  exact (conj H (security_boundary deployedCloud "id-myVPC" deployedNetwork subnetA subnetB H)).
Defined.

(** Representative packets against the deployed boundary: the database port
    from inside the network passes; the same port from outside, another port
    from inside, and UDP on a listed port do not. *)
Example boundary_packets :
  ∀ sg, findConstruct "DbSecurityGroup"
          (resources (ExpenseTrackerServices deployedCloud emptyStack).2) = Some sg →
  allowsInbound sg {| pktProtocol := IpTcp; pktPort := 3306; pktPeer := ipv4 10 0 2 17 |} = true ∧
  allowsInbound sg {| pktProtocol := IpTcp; pktPort := 3306; pktPeer := ipv4 10 1 0 1 |} = false ∧
  allowsInbound sg {| pktProtocol := IpTcp; pktPort := 22; pktPeer := ipv4 10 0 2 17 |} = false ∧
  allowsInbound sg {| pktProtocol := IpUdp; pktPort := 9092; pktPeer := ipv4 10 0 2 17 |} = false.
Proof.
  intros sg H. vm_compute in H. injection H as <-. vm_compute. auto.
Qed.

Lemma workloads_and_listeners_witness :
  resolvable deployedCloud "id-myVPC" deployedNetwork subnetA subnetB ∧
  let r := ExpenseTrackerServices deployedCloud emptyStack in
  succeeded r ∧
  workloadsIn r.2
    = [ ("MySQLService", [3306%N], 1%nat);
        ("ZookeeperService", [2181%N], 3%nat);
        ("KafkaService", [9092%N], 3%nat) ] ∧
  listenersIn r.2
    = [ (3306%N, TCP, ["MySQLTargetGroup"]); (9092%N, TCP, ["KafkaTargetGroup"]) ] ∧
  targetGroupsIn r.2
    = [ ("MySQLTargetGroup", 3306%N, ["MySQLService"]);
        ("KafkaTargetGroup", 9092%N, ["KafkaService"]) ] ∧
  2181%N ∉ (listenersIn r.2).*1.*1.
Proof.
  assert (H : resolvable deployedCloud "id-myVPC" deployedNetwork subnetA subnetB)
    by (constructor; vm_compute; reflexivity).
  exact (conj H (workloads_and_listeners deployedCloud "id-myVPC" deployedNetwork
                   subnetA subnetB H)).
Defined.

Lemma services_lookups_witness :
  resolvable deployedCloud "id-myVPC" deployedNetwork subnetA subnetB ∧
  let r := ExpenseTrackerServices deployedCloud emptyStack in
  succeeded r ∧
  lookupsIn r.2 = ["VpcId"; "PrivateSubnet-0"; "PrivateSubnet-1"] ∧
  trace r.2
    = ([LookedUp "VpcId"; VpcLookedUp "id-myVPC";
        LookedUp "PrivateSubnet-0"; LookedUp "PrivateSubnet-1"]
       ++ (Created <$> createdIn r.2))%list ∧
  length (createdIn r.2) = length (resources r.2) ∧
  ("PublicSubnet-0" ∉ lookupsIn r.2) ∧ ("PublicSubnet-1" ∉ lookupsIn r.2).
Proof.
  assert (H : resolvable deployedCloud "id-myVPC" deployedNetwork subnetA subnetB)
    by (constructor; vm_compute; reflexivity).
  exact (conj H (services_lookups deployedCloud "id-myVPC" deployedNetwork subnetA subnetB H)).
Defined.

Lemma load_balancer_address_witness :
  (resolvable deployedCloud "id-myVPC" deployedNetwork subnetA subnetB ∧
   registry deployedCloud !! "ExpenseTrackerServicesNLB" = None) ∧
  let r := ExpenseTrackerServices deployedCloud emptyStack in
  succeeded r ∧
  findConstruct "DatabaseNLB" (resources r.2)
    = Some (NetworkLoadBalancer (vpcId deployedNetwork) false [[Lit subnetA]; [Lit subnetB]]) ∧
  parametersIn r.2
    = [("ExpenseTrackerServicesNLB", [Tok (GetAtt "DatabaseNLB" "DNSName")])] ∧
  envLookup "KAFKA_ADVERTISED_LISTENERS" (serviceEnvironment r.2 "KafkaService")
    = Some [Lit "PLAINTEXT://"; Tok (GetAtt "DatabaseNLB" "DNSName"); Lit ":9092"] ∧
  resolve physicalIds [Lit "PLAINTEXT://"; Tok (GetAtt "DatabaseNLB" "DNSName"); Lit ":9092"]
    = "PLAINTEXT://" +:+ physicalIds (GetAtt "DatabaseNLB" "DNSName") +:+ ":9092" ∧
  ∃ cloud, deploy physicalIds ExpenseTrackerServices deployedCloud = Ok cloud ∧
           registry cloud
           = <["ExpenseTrackerServicesNLB" := physicalIds (GetAtt "DatabaseNLB" "DNSName")]>
               (registry deployedCloud).
Proof.
  assert (H : resolvable deployedCloud "id-myVPC" deployedNetwork subnetA subnetB)
    by (constructor; vm_compute; reflexivity).
  assert (Hfree : registry deployedCloud !! "ExpenseTrackerServicesNLB" = None)
    by (vm_compute; reflexivity).
  exact (conj (conj H Hfree)
           (load_balancer_address deployedCloud "id-myVPC" deployedNetwork subnetA subnetB H
              physicalIds Hfree)).
Defined.

Lemma broker_replicas_share_identity_witness :
  resolvable deployedCloud "id-myVPC" deployedNetwork subnetA subnetB ∧
  let r := ExpenseTrackerServices deployedCloud emptyStack in
  succeeded r ∧
  ∃ svc, findConstruct "KafkaService" (resources r.2) = Some (FargateService svc) ∧
         desiredCount svc = 3%nat ∧
         length (replicasOf r.2 svc) = 3%nat ∧
         ∀ n : nat,
           length (replicasOf r.2 (withDesiredCount n svc)) = n ∧
           (∀ a b, a ∈ replicasOf r.2 (withDesiredCount n svc) →
                   b ∈ replicasOf r.2 (withDesiredCount n svc) →
                   taskEnvironment a = taskEnvironment b) ∧
           Forall (λ replica,
                     envLookup "KAFKA_BROKER_ID" (taskEnvironment replica) = Some [Lit "1"] ∧
                     envLookup "KAFKA_BROKER_RACK" (taskEnvironment replica)
                       = Some [Lit "RACK1"])
                  (replicasOf r.2 (withDesiredCount n svc)).
Proof.
  assert (H : resolvable deployedCloud "id-myVPC" deployedNetwork subnetA subnetB)
    by (constructor; vm_compute; reflexivity).
  exact (conj H (broker_replicas_share_identity deployedCloud "id-myVPC" deployedNetwork
                   subnetA subnetB H)).
Defined.

(** ** The two stacks together *)

(** C8: deployed after the network stack, the workload stack places each of
    its three workloads in subnets that are private subnets of the network,
    and in no public one. *)
Theorem workloads_in_private_subnets (ρ : Resolver) (env : Cloud) :
  (2 ≤ length (zones env))%nat →
  Forall (λ k, registry env !! k = None) publishedKeys →
  (∀ a b, ρ (Ref a) = ρ (Ref b) → a = b) →
  ∃ cloud net,
    deploy ρ ExpenseTrackerServicesDeployStack env = Ok cloud ∧
    networks cloud !! ρ (Ref "myVPC") = Some net ∧
    let r := ExpenseTrackerServices cloud emptyStack in
    succeeded r ∧
    (servicesIn r.2).*1 = ["MySQLService"; "ZookeeperService"; "KafkaService"] ∧
    Forall (λ svc,
              vpcSubnets svc.2 ≠ [] ∧
              Forall (λ sid, sid ∈ subnetId <$> privateSubnets net ∧
                             sid ∉ subnetId <$> publicSubnets net)
                     (vpcSubnets svc.2))
           (servicesIn r.2).
Proof.
  intros H Hfree Hinj.
  destruct (deploy_network ρ env H Hfree) as (net & Hd & Hc & Hpub & Hpriv).
  eexists _, net. split; [exact Hd|].
  split; [cbn [networks]; apply lookup_insert_eq|].
  match goal with
  | |- context [ExpenseTrackerServices ?c _] =>
      assert (Hres : resolvable c (ρ (Ref "myVPC")) net
                       (ρ (Ref "myVPC/private-subnetSubnet1"))
                       (ρ (Ref "myVPC/private-subnetSubnet2")))
  end.
  { destruct (deployedRegistry_lookups ρ (registry env)) as (Ha & _ & _ & Hb & Hc').
    constructor; cbn [registry networks].
    - exact Ha.
    - apply lookup_insert_eq.
    - exact Hb.
    - exact Hc'. }
  cbv zeta. run_services Hres.
  split; [exact I|]. name_state. split; [by_run|].
  evaluate (servicesIn st). rewrite Hpub, Hpriv.
  assert (Hne : ∀ a b : string, a ≠ b → [Lit (ρ (Ref a))] ≠ [Lit (ρ (Ref b))]).
  { intros a b Hab E. injection E as E. apply Hinj in E. contradiction. }
  repeat apply Forall_cons_2; [..|apply Forall_nil_2];
    cbn [snd vpcSubnets]; (split; [discriminate|]);
    (repeat apply Forall_cons_2; [..|apply Forall_nil_2]);
    (split; [rewrite !elem_of_cons; auto|]);
    rewrite !not_elem_of_cons; (repeat split; [..|apply not_elem_of_nil]);
    apply Hne; discriminate.
Qed.

Lemma workloads_in_private_subnets_witness :
  ((2 ≤ length (zones threeZones))%nat ∧
   Forall (λ k, registry threeZones !! k = None) publishedKeys ∧
   (∀ a b, physicalIds (Ref a) = physicalIds (Ref b) → a = b)) ∧
  ∃ cloud net,
    deploy physicalIds ExpenseTrackerServicesDeployStack threeZones = Ok cloud ∧
    networks cloud !! physicalIds (Ref "myVPC") = Some net ∧
    let r := ExpenseTrackerServices cloud emptyStack in
    succeeded r ∧
    (servicesIn r.2).*1 = ["MySQLService"; "ZookeeperService"; "KafkaService"] ∧
    Forall (λ svc,
              vpcSubnets svc.2 ≠ [] ∧
              Forall (λ sid, sid ∈ subnetId <$> privateSubnets net ∧
                             sid ∉ subnetId <$> publicSubnets net)
                     (vpcSubnets svc.2))
           (servicesIn r.2).
Proof.
  assert (Hz : (2 ≤ length (zones threeZones))%nat) by (simpl; lia).
  assert (Hfree : Forall (λ k, registry threeZones !! k = None) publishedKeys)
    by (unfold publishedKeys; repeat constructor).
  assert (Hinj : ∀ a b, physicalIds (Ref a) = physicalIds (Ref b) → a = b)
    by (intros a b E; cbv in E; injection E as E; exact E).
  exact (conj (conj Hz (conj Hfree Hinj))
           (workloads_in_private_subnets physicalIds threeZones Hz Hfree Hinj)).
Defined.

(** * Further properties *)

(** ** The loops of the network stack *)

(** The stack body is the sequence of its declarations and the four loops. *)
Lemma networkStackFor_loops (azCount : nat) (block : Cidr) :
  networkStackFor azCount block
  = (vpc <- new_Vpc "myVPC" (vpcProps azCount block) ;;
     construct "InternetGateway" CfnInternetGateway ;;
     construct "MyUniqueVPCGatewayAttachment"
       (CfnVPCGatewayAttachment (vpcId vpc) (ref "InternetGateway")) ;;
     public0 <- at_index "vpc.publicSubnets[0]" (publicSubnets vpc) 0 ;;
     construct "EIPForNatGatewayOne" CfnEIP ;;
     construct "NatGatewayOne"
       (CfnNatGateway (subnetId public0) (attr "EIPForNatGatewayOne" "AllocationId")) ;;
     public1 <- at_index "vpc.publicSubnets[1]" (publicSubnets vpc) 1 ;;
     construct "EIPForNatGatewayTwo" CfnEIP ;;
     construct "NatGatewayTwo"
       (CfnNatGateway (subnetId public1) (attr "EIPForNatGatewayTwo" "AllocationId")) ;;
     privateRoutes (privateSubnets vpc) ;;
     publicRoutes (publicSubnets vpc) ;;
     construct "VpcIdExport" (StringParameter "VpcId" (vpcId vpc)) ;;
     exportPublicSubnets (publicSubnets vpc) ;;
     exportPrivateSubnets (privateSubnets vpc) ;;
     ret vpc).
Proof. reflexivity. Qed.

Lemma append_inj (p a b : string) : p +:+ a = p +:+ b → a = b.
Proof. induction p as [|c p IH]; cbn; intros E; [exact E|]. injection E as E. auto. Qed.

Lemma numbered_id_inj (prefix : string) (i j : nat) :
  prefix +:+ pretty i = prefix +:+ pretty j → i = j.
Proof. intros E. apply append_inj in E. by apply (inj pretty). Qed.

Lemma findConstruct_app (id : string) (rs rs' : list (string * Resource)) :
  findConstruct id (rs ++ rs')
  = match findConstruct id rs with
    | Some r => Some r
    | None => findConstruct id rs'
    end.
Proof.
  induction rs as [|[k r] rs IH]; cbn; [reflexivity|].
  destruct (decide (k = id)); [reflexivity|exact IH].
Qed.

Section NumberedLoop.

Context {A : Type} (prefix : string) (mk : A → nat → Resource).

Lemma numbered_cons (k : nat) (x : A) (xs : list A) :
  numbered prefix mk k (x :: xs)
  = (prefix +:+ pretty k, mk x k) :: numbered prefix mk (S k) xs.
Proof.
  unfold numbered. rewrite imap_cons, Nat.add_0_r. f_equal.
  apply imap_ext. intros j y _. cbn. by rewrite Nat.add_succ_r.
Qed.

Lemma length_numbered (k : nat) (xs : list A) :
  length (numbered prefix mk k xs) = length xs.
Proof. apply length_imap. Qed.

Lemma findConstruct_numbered_None (k i : nat) (xs : list A) :
  (i < k)%nat → findConstruct (prefix +:+ pretty i) (numbered prefix mk k xs) = None.
Proof.
  revert k. induction xs as [|x xs IH]; intros k Hi; [reflexivity|].
  rewrite numbered_cons. cbn. destruct (decide _) as [E|_].
  - apply numbered_id_inj in E. lia.
  - apply IH. lia.
Qed.

Lemma findConstruct_numbered (k i : nat) (xs : list A) (x : A) :
  xs !! i = Some x →
  findConstruct (prefix +:+ pretty (k + i)) (numbered prefix mk k xs) = Some (mk x (k + i)).
Proof.
  revert k i. induction xs as [|y xs IH]; intros k i Hx; [discriminate|].
  rewrite numbered_cons. cbn. destruct i as [|i]; cbn in Hx.
  - injection Hx as ->. rewrite Nat.add_0_r. by rewrite decide_True.
  - rewrite decide_False by (intros E; apply numbered_id_inj in E; lia).
    rewrite Nat.add_succ_r. apply (IH (S k) i Hx).
Qed.

Lemma forEachFrom_construct (k : nat) (xs : list A) (env : Cloud) (st : State) :
  (∀ i : nat, (k ≤ i)%nat → findConstruct (prefix +:+ pretty i) (resources st) = None) →
  forEachFrom k xs (λ x i, construct (prefix +:+ pretty i) (mk x i)) env st
  = (Ok tt, {| resources := resources st ++ numbered prefix mk k xs;
               trace := trace st ++ ((λ p, Created p.1) <$> numbered prefix mk k xs) |}).
Proof.
  revert k st. induction xs as [|x xs IH]; intros k st Hfree.
  - cbn. unfold ret. destruct st. cbn. by rewrite !app_nil_r.
  - rewrite numbered_cons.
    cbn [forEachFrom]. unfold bind at 1. unfold construct at 1.
    rewrite (Hfree k) by lia. rewrite IH.
    + cbn [resources trace fmap list_fmap fst]. by rewrite <- !app_assoc.
    + intros i Hi. cbn [resources]. rewrite findConstruct_app, (Hfree i) by lia.
      cbn. rewrite decide_False; [reflexivity|].
      intros E. apply numbered_id_inj in E. lia.
Qed.

End NumberedLoop.

Lemma forEach_construct {A} (prefix : string) (mk : A → nat → Resource) (xs : list A)
    (env : Cloud) (st : State) :
  unusedIds prefix st →
  forEach xs (λ x i, construct (prefix +:+ pretty i) (mk x i)) env st
  = (Ok tt, {| resources := resources st ++ numbered prefix mk 0 xs;
               trace := trace st ++ ((λ p, Created p.1) <$> numbered prefix mk 0 xs) |}).
Proof. intros Hfree. apply forEachFrom_construct. intros i _. apply Hfree. Qed.

Lemma parameters_numbered {A} (prefix : string) (key : nat → string) (value : A → TString)
    (k : nat) (xs : list A) :
  omap (λ p : string * Resource,
          match p.2 with StringParameter n v => Some (n, v) | _ => None end)
       (numbered prefix (λ x i, StringParameter (key i) (value x)) k xs)
  = imap (λ j x, (key (k + j), value x)) xs.
Proof.
  revert k. induction xs as [|x xs IH]; intros k; [reflexivity|].
  rewrite numbered_cons, imap_cons, Nat.add_0_r. cbn. rewrite IH. f_equal.
  apply imap_ext. intros j y _. cbn. by rewrite Nat.add_succ_r.
Qed.

(** X1: in a region with fewer than two zones the network stack throws when
    it reads the public subnet the region has no zone for; by then it has
    declared one NAT gateway per zone, but no route and no parameter, and
    deployment fails. *)
Theorem too_few_zones (env : Cloud) :
  (length (zones env) < 2)%nat →
  let r := ExpenseTrackerServicesDeployStack env emptyStack in
  r.1 = Throw (TypeError ("vpc.publicSubnets[" +:+ pretty (length (zones env)) +:+ "]")) ∧
  length (natGatewaysIn r.2) = length (zones env) ∧
  length (subnetsIn r.2) = (2 * length (zones env))%nat ∧
  parametersIn r.2 = [] ∧
  omap (λ p, match p.2 with CfnRoute t _ _ => Some t | _ => None end) (resources r.2) = [] ∧
  ∀ ρ, ∃ e, deploy ρ ExpenseTrackerServicesDeployStack env = Throw e.
Proof.
  intros H. destruct env as [zs reg nets]. cbn [zones] in *.
  destruct zs as [|z1 [|z2 more]]; [| |cbn in H; lia];
    cbv zeta; unfold deploy; run_network; cbv iota beta;
    (split; [by_run|]); name_state; repeat (split; [by_run|]); eauto.
Qed.

Lemma too_few_zones_witness :
  (length (zones oneZone) < 2)%nat ∧
  let r := ExpenseTrackerServicesDeployStack oneZone emptyStack in
  r.1 = Throw (TypeError ("vpc.publicSubnets[" +:+ pretty (length (zones oneZone)) +:+ "]")) ∧
  length (natGatewaysIn r.2) = length (zones oneZone) ∧
  length (subnetsIn r.2) = (2 * length (zones oneZone))%nat ∧
  parametersIn r.2 = [] ∧
  omap (λ p, match p.2 with CfnRoute t _ _ => Some t | _ => None end) (resources r.2) = [] ∧
  ∀ ρ, ∃ e, deploy ρ ExpenseTrackerServicesDeployStack oneZone = Throw e.
Proof.
  assert (H : (length (zones oneZone) < 2)%nat) by (simpl; lia).
  exact (conj H (too_few_zones oneZone H)).
Defined.

(** X11: the gateways of the network stack are wired to resources of the
    stack itself: the NAT gateways take the allocation ids of the elastic
    addresses declared for them, one each and in the same order, and the one
    attachment joins the stack's internet gateway to the network that holds
    all the subnets. *)
Theorem gateways_use_own_resources (env : Cloud) :
  (2 ≤ length (zones env))%nat →
  let r := ExpenseTrackerServicesDeployStack env emptyStack in
  allocationsIn r.2 = (λ e, attr e "AllocationId") <$> elasticIpsIn r.2 ∧
  NoDup (elasticIpsIn r.2) ∧
  length (elasticIpsIn r.2) = length (natGatewaysIn r.2) ∧
  ∃ vpc igw,
    networksIn r.2 = [vpc] ∧
    internetGatewaysIn r.2 = [igw] ∧
    attachmentsIn r.2 = [(ref vpc, ref igw)] ∧
    subnetsOf vpc (resources r.2) = subnetsIn r.2.
Proof.
  intros H. two_zones env H. cbv zeta. run_network. name_state.
  split; [by_run|].
  split; [evaluate (elasticIpsIn st); apply (bool_decide_unpack _); by_run|].
  split; [by_run|].
  exists "myVPC", "InternetGateway".
  split; [by_run|]. split; [by_run|]. split; by_run.
Qed.

Lemma gateways_use_own_resources_witness :
  (2 ≤ length (zones threeZones))%nat ∧
  let r := ExpenseTrackerServicesDeployStack threeZones emptyStack in
  allocationsIn r.2 = (λ e, attr e "AllocationId") <$> elasticIpsIn r.2 ∧
  NoDup (elasticIpsIn r.2) ∧
  length (elasticIpsIn r.2) = length (natGatewaysIn r.2) ∧
  ∃ vpc igw,
    networksIn r.2 = [vpc] ∧
    internetGatewaysIn r.2 = [igw] ∧
    attachmentsIn r.2 = [(ref vpc, ref igw)] ∧
    subnetsOf vpc (resources r.2) = subnetsIn r.2.
Proof.
  assert (H : (2 ≤ length (zones threeZones))%nat) by (simpl; lia).
  exact (conj H (gateways_use_own_resources threeZones H)).
Defined.

(** X2: the network stack reads nothing of the account but the first two
    zones of the region: the parameter store, the existing networks and any
    further zone do not change what it declares. *)
Theorem network_stack_reads_two_zones (env : Cloud) :
  ExpenseTrackerServicesDeployStack env emptyStack
  = ExpenseTrackerServicesDeployStack (region (take 2 (zones env))) emptyStack.
Proof.
  destruct env as [zs reg nets]. cbn [zones].
  destruct zs as [|z1 [|z2 more]]; by_run.
Qed.

(** X3: over any list of private subnets the route loop never throws on a
    tree without route ids of its own, adds one default route per subnet
    under the id numbered by its index, and sends the first subnet through
    NatGatewayOne and every later one through NatGatewayTwo; the loop over
    the public subnets sends each of them to the internet gateway. *)
Theorem route_loops_by_index (priv pub : list Subnet) (env : Cloud) (st : State) :
  unusedIds "PrivateRouteToNatGateway-" st →
  unusedIds "PublicRouteToInternetGateway-" st →
  let r := privateRoutes priv env st in
  let q := publicRoutes pub env st in
  (r.1 = Ok tt ∧
   length (resources r.2) = (length (resources st) + length priv)%nat ∧
   ∀ i s, priv !! i = Some s →
     findConstruct ("PrivateRouteToNatGateway-" +:+ pretty i) (resources r.2)
     = Some (CfnRoute (routeTableId s) anyIpv4
               (ViaNatGateway (ref (match i with
                                    | O => "NatGatewayOne"
                                    | S _ => "NatGatewayTwo"
                                    end))))) ∧
  (q.1 = Ok tt ∧
   length (resources q.2) = (length (resources st) + length pub)%nat ∧
   ∀ i s, pub !! i = Some s →
     findConstruct ("PublicRouteToInternetGateway-" +:+ pretty i) (resources q.2)
     = Some (CfnRoute (routeTableId s) anyIpv4 (ViaGateway (ref "InternetGateway")))).
Proof.
  intros Hpriv Hpub. cbv zeta. unfold privateRoutes, publicRoutes.
  rewrite !forEach_construct by assumption. cbn [fst snd resources].
  split; (split; [reflexivity|]); (split; [by rewrite length_app, length_numbered|]);
    intros i s Hs; rewrite findConstruct_app.
  - rewrite Hpriv.
    rewrite (findConstruct_numbered _ _ 0 i priv s Hs). cbn [Nat.add].
    by destruct i.
  - rewrite Hpub.
    by rewrite (findConstruct_numbered _ _ 0 i pub s Hs).
Qed.

Lemma route_loops_by_index_witness :
  (unusedIds "PrivateRouteToNatGateway-" emptyStack ∧
   unusedIds "PublicRouteToInternetGateway-" emptyStack) ∧
  let priv := subnetsIn (ExpenseTrackerServicesDeployStack threeZones emptyStack).2 in
  let pub := publicSubnets deployedNetwork in
  let r := privateRoutes priv threeZones emptyStack in
  let q := publicRoutes pub threeZones emptyStack in
  (r.1 = Ok tt ∧
   length (resources r.2) = (length (resources emptyStack) + length priv)%nat ∧
   ∀ i s, priv !! i = Some s →
     findConstruct ("PrivateRouteToNatGateway-" +:+ pretty i) (resources r.2)
     = Some (CfnRoute (routeTableId s) anyIpv4
               (ViaNatGateway (ref (match i with
                                    | O => "NatGatewayOne"
                                    | S _ => "NatGatewayTwo"
                                    end))))) ∧
  (q.1 = Ok tt ∧
   length (resources q.2) = (length (resources emptyStack) + length pub)%nat ∧
   ∀ i s, pub !! i = Some s →
     findConstruct ("PublicRouteToInternetGateway-" +:+ pretty i) (resources q.2)
     = Some (CfnRoute (routeTableId s) anyIpv4 (ViaGateway (ref "InternetGateway")))).
Proof.
  assert (H1 : unusedIds "PrivateRouteToNatGateway-" emptyStack) by (intros i; reflexivity).
  assert (H2 : unusedIds "PublicRouteToInternetGateway-" emptyStack) by (intros i; reflexivity).
  exact (conj (conj H1 H2)
           (route_loops_by_index
              (subnetsIn (ExpenseTrackerServicesDeployStack threeZones emptyStack).2)
              (publicSubnets deployedNetwork) threeZones emptyStack H1 H2)).
Defined.

Lemma numbered_keys_NoDup {A} (prefix : string) (xs : list A) :
  NoDup (imap (λ (i : nat) (_ : A), prefix +:+ pretty i) xs).
Proof.
  apply NoDup_alt. intros i j k. rewrite !list_lookup_imap.
  destruct (xs !! i); [|discriminate]. destruct (xs !! j); [|discriminate].
  cbn. intros [= <-] [= E]. symmetry. by apply numbered_id_inj in E.
Qed.

(** X4: over any list of subnets the export loops never throw on a tree
    without export ids of their own and publish the id of the i-th subnet
    under [PublicSubnet-i], respectively [PrivateSubnet-i]; the names of one
    loop never repeat. *)
Theorem export_loops_by_index (pub priv : list Subnet) (env : Cloud) (st : State) :
  unusedIds "PublicSubnetExport-" st →
  unusedIds "PrivateSubnetExport-" st →
  let r := exportPublicSubnets pub env st in
  let q := exportPrivateSubnets priv env st in
  (r.1 = Ok tt ∧
   parametersIn r.2
   = (parametersIn st ++ imap (λ i s, ("PublicSubnet-" +:+ pretty i, subnetId s)) pub)%list ∧
   NoDup (imap (λ i s, ("PublicSubnet-" +:+ pretty i, subnetId s)) pub).*1) ∧
  (q.1 = Ok tt ∧
   parametersIn q.2
   = (parametersIn st ++ imap (λ i s, ("PrivateSubnet-" +:+ pretty i, subnetId s)) priv)%list ∧
   NoDup (imap (λ i s, ("PrivateSubnet-" +:+ pretty i, subnetId s)) priv).*1).
Proof.
  intros Hpub Hpriv. cbv zeta. unfold exportPublicSubnets, exportPrivateSubnets.
  rewrite !forEach_construct by assumption. cbn [fst snd]. unfold parametersIn.
  cbn [resources]. rewrite !omap_app.
  rewrite (parameters_numbered "PublicSubnetExport-" (λ i, "PublicSubnet-" +:+ pretty i) subnetId).
  rewrite (parameters_numbered "PrivateSubnetExport-" (λ i, "PrivateSubnet-" +:+ pretty i) subnetId).
  cbn [Nat.add]. rewrite !fmap_imap.
  repeat split; apply (numbered_keys_NoDup _ _).
Qed.

Lemma export_loops_by_index_witness :
  (unusedIds "PublicSubnetExport-" emptyStack ∧ unusedIds "PrivateSubnetExport-" emptyStack) ∧
  let pub := publicSubnets deployedNetwork in
  let priv := subnetsIn (ExpenseTrackerServicesDeployStack threeZones emptyStack).2 in
  let r := exportPublicSubnets pub threeZones emptyStack in
  let q := exportPrivateSubnets priv threeZones emptyStack in
  (r.1 = Ok tt ∧
   parametersIn r.2
   = (parametersIn emptyStack
      ++ imap (λ i s, ("PublicSubnet-" +:+ pretty i, subnetId s)) pub)%list ∧
   NoDup (imap (λ i s, ("PublicSubnet-" +:+ pretty i, subnetId s)) pub).*1) ∧
  (q.1 = Ok tt ∧
   parametersIn q.2
   = (parametersIn emptyStack
      ++ imap (λ i s, ("PrivateSubnet-" +:+ pretty i, subnetId s)) priv)%list ∧
   NoDup (imap (λ i s, ("PrivateSubnet-" +:+ pretty i, subnetId s)) priv).*1).
Proof.
  assert (H1 : unusedIds "PublicSubnetExport-" emptyStack) by (intros i; reflexivity).
  assert (H2 : unusedIds "PrivateSubnetExport-" emptyStack) by (intros i; reflexivity).
  exact (conj (conj H1 H2)
           (export_loops_by_index (publicSubnets deployedNetwork)
              (subnetsIn (ExpenseTrackerServicesDeployStack threeZones emptyStack).2)
              threeZones emptyStack H1 H2)).
Defined.

(** ** The look-ups of the workload stack *)

(** X5: the constructor of the workload stack never stops at a look-up: in
    every account it performs the three parameter look-ups in source order
    and declares the same fourteen constructs.  It reports as missing
    exactly the parameters the account does not hold, and it reports nothing
    exactly when the three parameters and the network they name exist. *)
Theorem services_always_declare_everything (env : Cloud) :
  let r := ExpenseTrackerServices env emptyStack in
  succeeded r ∧
  lookupsIn r.2 = expectedKeys ∧
  createdIn r.2 = workloadConstructs ∧
  (resources r.2).*1 = workloadConstructs ∧
  Forall (λ k, MissingContext k ∈ trace r.2 ↔ registry env !! k = None) expectedKeys ∧
  (missingIn r.2 = [] ↔ ∃ vid net s1 s2, resolvable env vid net s1 s2).
Proof.
  cbv zeta. lookup_cases env; finish_run;
    (split; [exact I|]); name_state;
    (split; [by_run|]); (split; [by_run|]); (split; [by_run|]).
  all: split;
    [ unfold expectedKeys; repeat apply Forall_cons_2; [..|apply Forall_nil_2];
      match goal with
      | E : ?x = _ |- context [?x] => rewrite E
      end;
      (split; intros Hx;
       first [ reflexivity
             | discriminate Hx
             | by_decide
             | (exfalso; revert Hx; by_decide) ]) |].
  all: evaluate (missingIn st); clear st;
    (split;
     [ intros Hx; first [ discriminate Hx
                        | (eexists _, _, _, _; constructor; eassumption) ]
     | intros (v & n & a & b & [H0 Hn H1 H2]);
       first [ reflexivity | (exfalso; congruence) ] ]).
Qed.

(** An account that holds the network id in its parameter store but not the
    network: the stack goes on with the placeholder network. *)
Example missing_network :
  let env := {| zones := zones deployedCloud; registry := registry deployedCloud;
                networks := ∅ |} in
  let r := ExpenseTrackerServices env emptyStack in
  succeeded r ∧
  missingIn r.2 = [VpcNotFound "id-myVPC"] ∧
  attachedNetworks r.2 = replicate 5 [Lit "vpc-12345"] ∧
  (∀ ρ, cdkDeploy ρ ExpenseTrackerServices env = Throw (VpcNotFound "id-myVPC")).
Proof. cbv zeta. split; [vm_compute; exact I|]. repeat split; intros; by_run. Qed.

Section SameInputs.

Context (env env' : Cloud) (vid vid' : string) (net net' : Vpc) (s1 s2 : string).
Hypothesis account : resolvable env vid net s1 s2.
Hypothesis account' : resolvable env' vid' net' s1 s2.
Hypothesis same_id : vpcId net = vpcId net'.
Hypothesis same_block : vpcCidrBlock net = vpcCidrBlock net'.

(** X6: what the workload stack declares depends on the account only
    through the two subnet ids it reads and the id and address block of the
    network it finds: the zones, the other parameters, and the subnets the
    network itself lists play no part. *)
Theorem services_depend_on_lookups_only :
  resources (ExpenseTrackerServices env emptyStack).2
  = resources (ExpenseTrackerServices env' emptyStack).2.
Proof.
  destruct net as [i b pu pr iso], net' as [i' b' pu' pr' iso'].
  cbn in same_id, same_block. subst i' b'.
  run_services account.
  rewrite (bind_valueFromLookup_Some _ _ _ _ _ (has_vpc_id _ _ _ _ _ account')); cbv beta.
  rewrite (bind_fromLookup_Some _ _ _ _ _ _ (has_network _ _ _ _ _ account')); cbv beta.
  rewrite (bind_valueFromLookup_Some _ _ _ _ _ (has_subnet_0 _ _ _ _ _ account')); cbv beta zeta.
  rewrite (bind_valueFromLookup_Some _ _ _ _ _ (has_subnet_1 _ _ _ _ _ account')); cbv beta zeta.
  by_run.
Qed.

End SameInputs.

Lemma services_depend_on_lookups_only_witness :
  let other := {| zones := [];
                  registry := <["Unrelated" := "value"]> (registry deployedCloud);
                  networks := networks deployedCloud |} in
  (resolvable deployedCloud "id-myVPC" deployedNetwork subnetA subnetB ∧
   resolvable other "id-myVPC" deployedNetwork subnetA subnetB ∧
   vpcId deployedNetwork = vpcId deployedNetwork ∧
   vpcCidrBlock deployedNetwork = vpcCidrBlock deployedNetwork) ∧
  resources (ExpenseTrackerServices deployedCloud emptyStack).2
  = resources (ExpenseTrackerServices other emptyStack).2.
Proof.
  cbv zeta.
  assert (H : resolvable deployedCloud "id-myVPC" deployedNetwork subnetA subnetB)
    by (constructor; vm_compute; reflexivity).
  assert (H' : resolvable
                 {| zones := [];
                    registry := <["Unrelated" := "value"]> (registry deployedCloud);
                    networks := networks deployedCloud |}
                 "id-myVPC" deployedNetwork subnetA subnetB)
    by (constructor; vm_compute; reflexivity).
  exact (conj (conj H (conj H' (conj eq_refl eq_refl)))
           (services_depend_on_lookups_only _ _ _ _ _ _ _ _ H H' eq_refl eq_refl)).
Defined.

(** ** Ports, boundary and load balancer of the workload stack *)

Lemma three_port_rules (v : TString) (b : Cidr) (o : bool) (eg : list Rule)
    (d1 d2 d3 : string) (p : Packet) :
  allowsInbound
    (SecurityGroup v o
       [ {| rulePeer := b; rulePort := PortRange IpTcp 3306 3306; ruleDescription := d1 |};
         {| rulePeer := b; rulePort := PortRange IpTcp 9092 9092; ruleDescription := d2 |};
         {| rulePeer := b; rulePort := PortRange IpTcp 2181 2181; ruleDescription := d3 |} ]
       eg) p = true
  ↔ pktProtocol p = IpTcp ∧ pktPort p ∈ [3306; 9092; 2181]%N ∧ inCidr (pktPeer p) b = true.
Proof.
  destruct p as [proto port peer].
  cbn [allowsInbound existsb]. unfold ruleMatches, portMatches.
  cbn [rulePeer rulePort pktPeer pktPort pktProtocol].
  rewrite !orb_true_iff, !andb_true_iff, !bool_decide_eq_true, !N.leb_le.
  rewrite !elem_of_cons, elem_of_nil.
  split.
  - intros [(Hc & (-> & ?) & ?)|[(Hc & (-> & ?) & ?)|[(Hc & (-> & ?) & ?)|?]]];
      try discriminate; (split; [reflexivity|split; [|exact Hc]]).
    + left. lia.
    + right. left. lia.
    + right. right. left. lia.
  - intros (-> & [->|[->|[->|[]]]] & Hc).
    + left. repeat split; [exact Hc|lia|lia].
    + right. left. repeat split; [exact Hc|lia|lia].
    + right. right. left. repeat split; [exact Hc|lia|lia].
Qed.

Section WorkloadWiring.

Context (env : Cloud) (vid : string) (net : Vpc) (s1 s2 : string).
Hypothesis account : resolvable env vid net s1 s2.

(** X7: the boundary and the containers agree on the ports: all services
    share the one security group, and it lets a packet in exactly when the
    packet is TCP, comes from inside the network and goes to a port that a
    container of one of the services maps. *)
Theorem boundary_matches_container_ports :
  let r := ExpenseTrackerServices env emptyStack in
  servicesIn r.2 ≠ [] ∧
  Forall (λ svc, securityGroups svc.2 = ["DbSecurityGroup"] ∧ servicePorts r.2 svc.2 ≠ [])
         (servicesIn r.2) ∧
  ∃ sg, findConstruct "DbSecurityGroup" (resources r.2) = Some sg ∧
        ∀ p, allowsInbound sg p = true ↔
             pktProtocol p = IpTcp ∧
             pktPort p ∈ concat ((λ svc, servicePorts r.2 svc.2) <$> servicesIn r.2) ∧
             inCidr (pktPeer p) (vpcCidrBlock net) = true.
Proof.
  cbv zeta. run_services account. name_state.
  evaluate (concat ((λ svc, servicePorts st svc.2) <$> servicesIn st)).
  split; [vm_compute; discriminate|]. split.
  - evaluate (servicesIn st).
    repeat apply Forall_cons_2; [..|apply Forall_nil_2];
      (split; [reflexivity|vm_compute; discriminate]).
  - evaluate (findConstruct "DbSecurityGroup" (resources st)).
    eexists. split; [reflexivity|]. intros p.
    change (match net with {| vpcCidrBlock := b |} => b end) with (vpcCidrBlock net).
    rewrite three_port_rules, !elem_of_cons, !elem_of_nil. tauto.
Qed.

(** X8: the load balancer is wired consistently: it is internal and sits in
    the subnets of the services; each listener is TCP and forwards to one
    target group on the listener's own port, whose only target is a service
    with a container that maps this port. *)
Theorem listeners_reach_their_containers :
  let r := ExpenseTrackerServices env emptyStack in
  (∃ subs, findConstruct "DatabaseNLB" (resources r.2)
           = Some (NetworkLoadBalancer (vpcId net) false subs) ∧
           Forall (λ svc, vpcSubnets svc.2 = subs) (servicesIn r.2)) ∧
  listenersIn r.2 ≠ [] ∧
  Forall (λ l, l.1.2 = TCP ∧
               ∃ tg svc, l.2 = [tg] ∧
                         (tg, l.1.1, [svc.1]) ∈ targetGroupsIn r.2 ∧
                         svc ∈ servicesIn r.2 ∧
                         l.1.1 ∈ servicePorts r.2 svc.2)
         (listenersIn r.2).
Proof.
  cbv zeta. run_services account. name_state.
  change (match net with {| vpcId := b |} => b end) with (vpcId net) in *.
  split.
  - evaluate (findConstruct "DatabaseNLB" (resources st)).
    change (match net with {| vpcId := b |} => b end) with (vpcId net).
    eexists. split; [reflexivity|].
    evaluate (servicesIn st).
    repeat apply Forall_cons_2; [..|apply Forall_nil_2]; reflexivity.
  - evaluate (listenersIn st). split; [discriminate|].
    evaluate (targetGroupsIn st).
    repeat apply Forall_cons_2; [| |apply Forall_nil_2]; (split; [reflexivity|]).
    + destruct (servicesIn st !! 0%nat) as [svc|] eqn:E; [|vm_compute in E; discriminate E].
      exists "MySQLTargetGroup", svc. split; [reflexivity|].
      split; [|split; [by eapply list_elem_of_lookup_2|]];
        vm_compute in E; injection E as <-.
      * apply list_elem_of_here.
      * evaluate (servicePorts st
                    ("MySQLService",
                     {| cluster := "DatabaseKafkaCluster"; taskDefinition := "MySQLTaskDef";
                        desiredCount := 1; securityGroups := ["DbSecurityGroup"];
                        vpcSubnets := [[Lit s1]; [Lit s2]]; enableExecuteCommand := true;
                        cloudMapOptions := None |}).2).
        apply list_elem_of_here.
    + destruct (servicesIn st !! 2%nat) as [svc|] eqn:E; [|vm_compute in E; discriminate E].
      exists "KafkaTargetGroup", svc. split; [reflexivity|].
      split; [|split; [by eapply list_elem_of_lookup_2|]];
        vm_compute in E; injection E as <-.
      * apply list_elem_of_further, list_elem_of_here.
      * evaluate (servicePorts st
                    ("KafkaService",
                     {| cluster := "DatabaseKafkaCluster"; taskDefinition := "KafkaTaskDef";
                        desiredCount := 3; securityGroups := ["DbSecurityGroup"];
                        vpcSubnets := [[Lit s1]; [Lit s2]]; enableExecuteCommand := false;
                        cloudMapOptions := Some "kafka-service" |}).2).
        apply list_elem_of_here.
Qed.

(** X9: the broker finds the coordination service by name: its connect
    string is the discovery name of the coordination service, the namespace
    of the cluster both services run in, and the client port that the
    coordination service is configured with and its container maps. *)
Theorem broker_finds_coordination_service :
  let r := ExpenseTrackerServices env emptyStack in
  ∃ zk kafka name namespace port,
    findConstruct "ZookeeperService" (resources r.2) = Some (FargateService zk) ∧
    findConstruct "KafkaService" (resources r.2) = Some (FargateService kafka) ∧
    cluster kafka = cluster zk ∧
    findConstruct (cluster zk) (resources r.2) = Some (Cluster (vpcId net) namespace) ∧
    cloudMapOptions zk = Some name ∧
    servicePorts r.2 zk = [port] ∧
    envLookup "ZOOKEEPER_CLIENT_PORT" (serviceEnvironment r.2 "ZookeeperService")
      = Some [Lit (pretty port)] ∧
    envLookup "KAFKA_ZOOKEEPER_CONNECT" (serviceEnvironment r.2 "KafkaService")
      = Some [Lit (name +:+ "." +:+ namespace +:+ ":" +:+ pretty port)].
Proof.
  cbv zeta. run_services account. name_state.
  change (match net with {| vpcId := b |} => b end) with (vpcId net) in *.
  evaluate (findConstruct "ZookeeperService" (resources st)).
  evaluate (findConstruct "KafkaService" (resources st)).
  eexists _, _, "zookeeper-service", "local", 2181%N.
  split; [reflexivity|]. split; [reflexivity|]. split; [reflexivity|].
  cbn [cluster cloudMapOptions].
  split.
  { evaluate (findConstruct "DatabaseKafkaCluster" (resources st)).
    change (match net with {| vpcId := b |} => b end) with (vpcId net). reflexivity. }
  split; [reflexivity|]. split; [by_run|]. split; by_run.
Qed.

End WorkloadWiring.

Lemma boundary_matches_container_ports_witness :
  resolvable deployedCloud "id-myVPC" deployedNetwork subnetA subnetB ∧
  let r := ExpenseTrackerServices deployedCloud emptyStack in
  servicesIn r.2 ≠ [] ∧
  Forall (λ svc, securityGroups svc.2 = ["DbSecurityGroup"] ∧ servicePorts r.2 svc.2 ≠ [])
         (servicesIn r.2) ∧
  ∃ sg, findConstruct "DbSecurityGroup" (resources r.2) = Some sg ∧
        ∀ p, allowsInbound sg p = true ↔
             pktProtocol p = IpTcp ∧
             pktPort p ∈ concat ((λ svc, servicePorts r.2 svc.2) <$> servicesIn r.2) ∧
             inCidr (pktPeer p) (vpcCidrBlock deployedNetwork) = true.
Proof.
  assert (H : resolvable deployedCloud "id-myVPC" deployedNetwork subnetA subnetB)
    by (constructor; vm_compute; reflexivity).
  exact (conj H (boundary_matches_container_ports deployedCloud "id-myVPC" deployedNetwork
                   subnetA subnetB H)).
Defined.

Lemma listeners_reach_their_containers_witness :
  resolvable deployedCloud "id-myVPC" deployedNetwork subnetA subnetB ∧
  let r := ExpenseTrackerServices deployedCloud emptyStack in
  (∃ subs, findConstruct "DatabaseNLB" (resources r.2)
           = Some (NetworkLoadBalancer (vpcId deployedNetwork) false subs) ∧
           Forall (λ svc, vpcSubnets svc.2 = subs) (servicesIn r.2)) ∧
  listenersIn r.2 ≠ [] ∧
  Forall (λ l, l.1.2 = TCP ∧
               ∃ tg svc, l.2 = [tg] ∧
                         (tg, l.1.1, [svc.1]) ∈ targetGroupsIn r.2 ∧
                         svc ∈ servicesIn r.2 ∧
                         l.1.1 ∈ servicePorts r.2 svc.2)
         (listenersIn r.2).
Proof.
  assert (H : resolvable deployedCloud "id-myVPC" deployedNetwork subnetA subnetB)
    by (constructor; vm_compute; reflexivity).
  exact (conj H (listeners_reach_their_containers deployedCloud "id-myVPC" deployedNetwork
                   subnetA subnetB H)).
Defined.

Lemma broker_finds_coordination_service_witness :
  resolvable deployedCloud "id-myVPC" deployedNetwork subnetA subnetB ∧
  let r := ExpenseTrackerServices deployedCloud emptyStack in
  ∃ zk kafka name namespace port,
    findConstruct "ZookeeperService" (resources r.2) = Some (FargateService zk) ∧
    findConstruct "KafkaService" (resources r.2) = Some (FargateService kafka) ∧
    cluster kafka = cluster zk ∧
    findConstruct (cluster zk) (resources r.2)
      = Some (Cluster (vpcId deployedNetwork) namespace) ∧
    cloudMapOptions zk = Some name ∧
    servicePorts r.2 zk = [port] ∧
    envLookup "ZOOKEEPER_CLIENT_PORT" (serviceEnvironment r.2 "ZookeeperService")
      = Some [Lit (pretty port)] ∧
    envLookup "KAFKA_ZOOKEEPER_CONNECT" (serviceEnvironment r.2 "KafkaService")
      = Some [Lit (name +:+ "." +:+ namespace +:+ ":" +:+ pretty port)].
Proof.
  assert (H : resolvable deployedCloud "id-myVPC" deployedNetwork subnetA subnetB)
    by (constructor; vm_compute; reflexivity).
  exact (conj H (broker_finds_coordination_service deployedCloud "id-myVPC" deployedNetwork
                   subnetA subnetB H)).
Defined.

(** ** The boundary over the deployed network *)

(** An address inside a block that lies inside a larger block is inside the
    larger block. *)
Lemma inCidr_within (ip : N) (s c : Cidr) :
  N.land (netmask (cidrPrefix s)) (netmask (cidrPrefix c)) = netmask (cidrPrefix c) →
  inCidr (cidrBase s) c = true →
  inCidr ip s = true →
  inCidr ip c = true.
Proof.
  unfold inCidr. rewrite !N.eqb_eq. intros Hm Hb Hs.
  rewrite <- Hb, <- Hm, !N.land_assoc, Hs. reflexivity.
Qed.

(** The network that deployment records carries the physical id of the
    network stack's [myVPC]. *)
Lemma deploy_network_id (ρ : Resolver) (env : Cloud) :
  (2 ≤ length (zones env))%nat →
  Forall (λ k, registry env !! k = None) publishedKeys →
  ∃ net : Vpc,
    deploy ρ ExpenseTrackerServicesDeployStack env
    = Ok {| zones := zones env;
            registry := deployedRegistry ρ (registry env);
            networks := <[ρ (Ref "myVPC") := net]> (networks env) |}
    ∧ vpcId net = [Lit (ρ (Ref "myVPC"))]
    ∧ vpcCidrBlock net = 10∙0∙0∙0 // 16.
Proof.
  intros H Hfree. two_zones env H.
  unfold deploy. run_network. cbv iota beta.
  match goal with |- context [deployAll _ ?s ?s _] => set (rs := s) at 1 end.
  exists (describeVpc ρ rs "myVPC" (10∙0∙0∙0 // 16)).
  split; [|subst rs; repeat split; by_run].
  step_deploy. unfold publishedKeys in Hfree.
  repeat match goal with
         | H : Forall _ (_ :: _) |- _ => apply Forall_cons_1 in H; destruct H as [? H]
         end.
  cbv beta in *; cbn [registry] in *.
  repeat (rewrite ?lookup_insert_ne by done;
          match goal with
          | H : ?r !! ?k = None |- context [?r !! ?k] => rewrite H
          end;
          step_deploy).
  reflexivity.
Qed.

(** X10: once the network stack is deployed, everything the workload stack
    declares is attached to the network that stack created, and the
    boundary takes the block 10.0.0.0/16 as its source range: every address
    of each of the four subnets, public or private, reaches the three ports,
    and no address outside the block reaches any port. *)
Theorem boundary_covers_the_subnets (ρ : Resolver) (env : Cloud) :
  (2 ≤ length (zones env))%nat →
  Forall (λ k, registry env !! k = None) publishedKeys →
  ∃ cloud,
    deploy ρ ExpenseTrackerServicesDeployStack env = Ok cloud ∧
    let r := ExpenseTrackerServices cloud emptyStack in
    succeeded r ∧
    attachedNetworks r.2 ≠ [] ∧
    Forall (λ v, v = [Lit (ρ (Ref "myVPC"))]) (attachedNetworks r.2) ∧
    ∃ sg, findConstruct "DbSecurityGroup" (resources r.2) = Some sg ∧
          (∀ p, allowsInbound sg p = true → inCidr (pktPeer p) (10∙0∙0∙0 // 16) = true) ∧
          length (subnetsIn (ExpenseTrackerServicesDeployStack env emptyStack).2) = 4%nat ∧
          Forall (λ s, ∀ ip port,
                    inCidr ip (ipv4CidrBlock s) = true →
                    port ∈ [3306; 9092; 2181]%N →
                    allowsInbound sg {| pktProtocol := IpTcp; pktPort := port; pktPeer := ip |}
                    = true)
                 (subnetsIn (ExpenseTrackerServicesDeployStack env emptyStack).2).
Proof.
  intros H Hfree.
  destruct (deploy_network_id ρ env H Hfree) as (net & Hd & Hid & Hc).
  destruct net as [i b pu pr iso]. cbn [vpcId vpcCidrBlock] in Hid, Hc. subst i b.
  eexists. split; [exact Hd|].
  match goal with
  | |- context [ExpenseTrackerServices ?c _] =>
      assert (Hres : resolvable c (ρ (Ref "myVPC"))
                       {| vpcId := [Lit (ρ (Ref "myVPC"))];
                          vpcCidrBlock := 10∙0∙0∙0 // 16;
                          publicSubnets := pu; privateSubnets := pr;
                          isolatedSubnets := iso |}
                       (ρ (Ref "myVPC/private-subnetSubnet1"))
                       (ρ (Ref "myVPC/private-subnetSubnet2")))
  end.
  { destruct (deployedRegistry_lookups ρ (registry env)) as (Ha & _ & _ & Hb & Hc').
    constructor; cbn [registry networks].
    - exact Ha.
    - apply lookup_insert_eq.
    - exact Hb.
    - exact Hc'. }
  clear Hd Hfree. two_zones env H. cbv zeta. run_network.
  match goal with |- context [subnetsIn ?x] => evaluate (subnetsIn x) end.
  run_services Hres. clear Hres.
  split; [exact I|]. name_state.
  evaluate (attachedNetworks st). split; [discriminate|].
  split; [repeat apply Forall_cons_2; [..|apply Forall_nil_2]; reflexivity|].
  evaluate (findConstruct "DbSecurityGroup" (resources st)).
  eexists. split; [reflexivity|]. split.
  { intros p Hp. apply three_port_rules in Hp as (_ & _ & Hin). exact Hin. }
  split; [reflexivity|].
  repeat apply Forall_cons_2; [..|apply Forall_nil_2];
    intros ip port Hin Hport; apply three_port_rules;
    (split; [reflexivity|split; [exact Hport|]]); cbn [pktPeer];
    refine (inCidr_within ip _ _ _ _ Hin); by_run.
Qed.

Lemma boundary_covers_the_subnets_witness :
  ((2 ≤ length (zones threeZones))%nat ∧
   Forall (λ k, registry threeZones !! k = None) publishedKeys) ∧
  ∃ cloud,
    deploy physicalIds ExpenseTrackerServicesDeployStack threeZones = Ok cloud ∧
    let r := ExpenseTrackerServices cloud emptyStack in
    succeeded r ∧
    attachedNetworks r.2 ≠ [] ∧
    Forall (λ v, v = [Lit (physicalIds (Ref "myVPC"))]) (attachedNetworks r.2) ∧
    ∃ sg, findConstruct "DbSecurityGroup" (resources r.2) = Some sg ∧
          (∀ p, allowsInbound sg p = true → inCidr (pktPeer p) (10∙0∙0∙0 // 16) = true) ∧
          length (subnetsIn (ExpenseTrackerServicesDeployStack threeZones emptyStack).2)
            = 4%nat ∧
          Forall (λ s, ∀ ip port,
                    inCidr ip (ipv4CidrBlock s) = true →
                    port ∈ [3306; 9092; 2181]%N →
                    allowsInbound sg {| pktProtocol := IpTcp; pktPort := port; pktPeer := ip |}
                    = true)
                 (subnetsIn (ExpenseTrackerServicesDeployStack threeZones emptyStack).2).
Proof.
  assert (Hz : (2 ≤ length (zones threeZones))%nat) by (simpl; lia).
  assert (Hfree : Forall (λ k, registry threeZones !! k = None) publishedKeys)
    by (unfold publishedKeys; repeat constructor).
  exact (conj (conj Hz Hfree) (boundary_covers_the_subnets physicalIds threeZones Hz Hfree)).
Defined.
